(** * Excel to MySQL migration: table naming, type inference, sheet loop

    A shallow embedding of [src/excel_to_mysql_migration.py]
    (class [ExcelToMySQLMigrator]) and the properties its specification
    states about it.

    - Python [str] values are lists of Unicode code points ([list N]).
    - [pandas] columns are a [Series] tagged by its dtype.
    - The [try ... except Exception] of [migrate_sheet_to_table] is an
      exception monad over a world that holds the destination database,
      the calls made to [DataFrame.to_sql] and the lines printed. *)

From Stdlib Require Import String Ascii.
From stdpp Require Import base numbers list gmap.

Local Open Scope N_scope.

(** ** Python strings *)

Abbreviation pystr := (list N).

(** An ASCII literal as a Python string. *)
Definition lit (s : string) : pystr :=
  map N_of_ascii (list_ascii_of_string s).

(** Exceptions the modelled code can raise, and results of fallible calls. *)
Inductive exn :=
| IndexError        (* [table_name[0]] on the empty string *)
| AttributeError    (* [.strip] on a header that is not text, [.dtype] on a frame *)
| ReadError         (* [pd.read_excel] failed *)
| SinkError.        (* [DataFrame.to_sql] failed *)

Inductive result (A : Type) :=
| Ok (a : A)
| Raise (e : exn).
Arguments Ok {A} a.
Arguments Raise {A} e.

(** [str.strip()] removes the characters for which CPython's
    [Py_UNICODE_ISSPACE] holds; the list is complete. *)
Definition isspace (c : N) : bool :=
  ((9 <=? c) && (c <=? 13)) || ((28 <=? c) && (c <=? 32))
  || (c =? 0x85) || (c =? 0xA0) || (c =? 0x1680)
  || ((0x2000 <=? c) && (c <=? 0x200A))
  || (c =? 0x2028) || (c =? 0x2029) || (c =? 0x202F)
  || (c =? 0x205F) || (c =? 0x3000).

Fixpoint lstrip (s : pystr) : pystr :=
  match s with
  | [] => []
  | c :: s' => if isspace c then lstrip s' else s
  end.

Definition rstrip (s : pystr) : pystr := rev (lstrip (rev s)).

Definition strip (s : pystr) : pystr := rstrip (lstrip s).

(** [s.replace(a, b)] for one-character [a] and [b]. *)
Definition replace (a b : N) (s : pystr) : pystr :=
  map (fun c => if c =? a then b else c) s.

(** The Unicode character database behind [str.isalnum], [str.isdigit]
    and [str.lower].  [lower] works on whole strings: one character can
    lower to several, and CPython lowers a final sigma by context. *)
Class UnicodeData := {
  isalnum : N -> bool;
  isdigit : N -> bool;
  lower : pystr -> pystr
}.

(** What every Unicode database says on ASCII. *)
Definition ascii_isdigit (c : N) : bool := (48 <=? c) && (c <=? 57).

Definition ascii_isalnum (c : N) : bool :=
  ascii_isdigit c || ((65 <=? c) && (c <=? 90)) || ((97 <=? c) && (c <=? 122)).

Definition ascii_lower (c : N) : N :=
  if (65 <=? c) && (c <=? 90) then c + 32 else c.

Definition is_ascii (c : N) : Prop := c < 128.

Record ascii_exact (U : UnicodeData) : Prop := {
  isalnum_ascii : forall c, is_ascii c -> isalnum c = ascii_isalnum c;
  isdigit_ascii : forall c, is_ascii c -> isdigit c = ascii_isdigit c;
  lower_ascii : forall s, Forall is_ascii s -> lower s = map ascii_lower s
}.

(** An excerpt of CPython's tables: exact on Basic Latin and Latin-1
    Supplement (U+0000 to U+00FF) and on U+0130 (capital I with dot
    above) and U+0307 (combining dot above).  Strings used with it below
    stay inside these code points. *)
Definition py_isdigit (c : N) : bool :=
  ascii_isdigit c || (c =? 0xB2) || (c =? 0xB3) || (c =? 0xB9).

Definition py_isalnum (c : N) : bool :=
  ascii_isalnum c
  || (c =? 0xAA) || (c =? 0xB2) || (c =? 0xB3) || (c =? 0xB5)
  || (c =? 0xB9) || (c =? 0xBA) || ((0xBC <=? c) && (c <=? 0xBE))
  || ((0xC0 <=? c) && (c <=? 0xD6)) || ((0xD8 <=? c) && (c <=? 0xF6))
  || ((0xF8 <=? c) && (c <=? 0xFF))
  || (c =? 0x130).

Definition py_lower_char (c : N) : pystr :=
  if c =? 0x130 then [0x69; 0x307]
  else if ((0xC0 <=? c) && (c <=? 0xD6)) || ((0xD8 <=? c) && (c <=? 0xDE))
       then [c + 32]
       else [ascii_lower c].

Definition py_unicode : UnicodeData :=
  {| isalnum := py_isalnum;
     isdigit := py_isdigit;
     lower := fun s => concat (map py_lower_char s) |}.

(** ** [clean_table_name] *)

Section CleanTableName.
Context {U : UnicodeData}.

(** The generator expression of line 169. *)
Definition keep_alnum (s : pystr) : pystr :=
  map (fun c => if isalnum c || (c =? 95) then c else 95) s.

Definition clean_table_name (sheet_name : pystr) : result pystr :=
  let table_name := strip sheet_name in
  let table_name := replace 32 95 table_name in
  let table_name := replace 45 95 table_name in
  let table_name := keep_alnum table_name in
  match table_name with
  | [] => Raise IndexError
  | c0 :: _ =>
      let table_name :=
        if isdigit c0 then lit "table_" ++ table_name else table_name in
      let table_name := lower table_name in
      Ok (take 64 table_name)
  end.
End CleanTableName.

(** [column.strip().replace(' ', '_').replace('-', '_')] of line 211. *)
Definition clean_column_name (col : pystr) : pystr :=
  replace 45 95 (replace 32 95 (strip col)).


(** ** Storage types

    The SQLAlchemy types the inferencer returns, and those an override
    map may also name ([column_types_config.py]). *)
Inductive sqltype :=
| SMALLINT
| INTEGER
| BIGINT
| DECIMAL (precision scale : Z)
| BOOLEAN
| DATETIME
| TEXT
| String (length : Z)
| DATE
| FLOAT
| DOUBLE
| TIME
| TIMESTAMP.

(** ** Columns

    [pd.read_excel] is called with its default arguments, so a column is
    NumPy-backed: [int64] and [bool] columns have no missing marker, a
    blank cell in a numeric column makes the column [float64] (NaN), a
    blank cell in a date column is NaT, and a column of text or of mixed
    cells is [object] with NaN for a blank cell. *)

(** IEEE doubles, up to what the inferencer can see of them. *)
Inductive float64 :=
| FNaN
| FNum (mantissa exponent : Z).

(** A cell of an [object] column.  [OOther] is a cell that is neither text
    nor missing (a number, a date, a boolean in a mixed column), with its
    [str()] rendering. *)
Inductive ocell :=
| OStr (s : pystr)
| ONaN
| OOther (rendered : pystr).

Inductive Series :=
| SInt (values : list Z)
| SFloat (values : list float64)
| SBool (values : list bool)
| SDatetime (values : list (option Z))
| SObject (values : list ocell).

(** [series.max()] on an integer column; NaN ([None]) when it is empty. *)
Definition int_max (values : list Z) : option Z :=
  match values with
  | [] => None
  | v :: vs => Some (foldl Z.max v vs)
  end.

(** [astype(str)] on one cell of an object column: NaN becomes the text
    [nan] (pandas 1 and 2). *)
Definition astype_str (c : ocell) : pystr :=
  match c with
  | OStr s => s
  | ONaN => lit "nan"
  | OOther r => r
  end.

(** [series.astype(str).str.len()]. *)
Definition str_len (values : list ocell) : list Z :=
  map (fun c => Z.of_nat (length (astype_str c))) values.

(** [series.astype(str).str.len().max()]; NaN ([None]) on an empty column. *)
Definition str_len_max (values : list ocell) : option Z :=
  match str_len values with
  | [] => None
  | n :: ns => Some (foldl Z.max n ns)
  end.

(** What [df[column]] gives: the column, or a sub-frame when several
    columns carry the label. *)
Inductive selection :=
| OneSeries (s : Series)
| SubFrame.

(** ** [infer_mysql_type] *)

(** [x < k] where [x] may be NaN: a comparison with NaN is false. *)
Definition nan_ltb (x : option Z) (k : Z) : bool :=
  match x with
  | Some m => (m <? k)%Z
  | None => false
  end.

Definition infer_mysql_type (column_types_mapping : gmap pystr sqltype)
    (series : selection) (column_name : pystr) : result sqltype :=
  match column_types_mapping !! column_name with
  | Some declared => Ok declared
  | None =>
      match series with
      | SubFrame => Raise AttributeError        (* a frame has no [.dtype] *)
      | OneSeries (SInt values) =>
          let max_val :=
            if bool_decide (0 < length values)%nat
            then int_max values else Some 0%Z in
          if nan_ltb max_val 127 then Ok SMALLINT
          else if nan_ltb max_val 32767 then Ok INTEGER
          else Ok BIGINT
      | OneSeries (SFloat _) => Ok (DECIMAL 15 4)
      | OneSeries (SBool _) => Ok BOOLEAN
      | OneSeries (SDatetime _) => Ok DATETIME
      | OneSeries (SObject values) =>
          let max_length :=
            match str_len_max values with
            | None => 255                       (* [pd.isna(max_length)] *)
            | Some n => if (n =? 0)%Z then 255 else n
            end%Z in
          if (5000 <? max_length)%Z then Ok TEXT
          else if (1000 <? max_length)%Z then Ok (String 5000)
          else
            (* [int(max_length * 1.5)]: the product is exact in a double
               and [int] truncates *)
            Ok (String (Z.min (Z.quot (3 * max_length) 2) 1000))
      end
  end.

(** ** Data frames *)

(** A column label as read from the header row: text, or a cell of some
    other type (a number, a date), which has no [strip] method. *)
Inductive header :=
| HStr (s : pystr)
| HOther.

(** A frame with labels of type [L]: [df.shape] is
    [(df_rows, length df_columns)]. *)
Record frame (L : Type) := {
  df_columns : list (L * Series);
  df_rows : nat
}.
Arguments df_columns {L} f.
Arguments df_rows {L} f.

Definition rbind {A B} (r : result A) (k : A -> result B) : result B :=
  match r with
  | Ok a => k a
  | Raise e => Raise e
  end.

Fixpoint rmap {A B} (f : A -> result B) (l : list A) : result (list B) :=
  match l with
  | [] => Ok []
  | a :: l' =>
      rbind (f a) (fun b => rbind (rmap f l') (fun bs => Ok (b :: bs)))
  end.

(** Lines 211-212: every label is cleaned; the first one that is not
    text raises. *)
Definition clean_columns (df : frame header) : result (frame pystr) :=
  rbind
    (rmap (fun '(h, s) =>
             match h with
             | HStr col => Ok (clean_column_name col, s)
             | HOther => Raise AttributeError
             end) (df_columns df))
    (fun cols => Ok {| df_columns := cols; df_rows := df_rows df |}).

(** [df[column]] for a label of the frame. *)
Definition getitem (df : frame pystr) (column : pystr) : selection :=
  match filter (fun p => p.1 = column) (df_columns df) with
  | [(_, s)] => OneSeries s
  | _ => SubFrame
  end.

(** A Python [dict] in insertion order; [d[k] = v]. *)
Fixpoint dict_set {V} (k : pystr) (v : V) (d : list (pystr * V))
    : list (pystr * V) :=
  match d with
  | [] => [(k, v)]
  | (k', v') :: d' =>
      if bool_decide (k' = k) then (k', v) :: d' else (k', v') :: dict_set k v d'
  end.

Definition create_dtype_dict (column_types_mapping : gmap pystr sqltype)
    (df : frame pystr) : result (list (pystr * sqltype)) :=
  foldl (fun acc column =>
           rbind acc (fun dtype_dict =>
           rbind (infer_mysql_type column_types_mapping (getitem df column) column)
                 (fun t => Ok (dict_set column t dtype_dict))))
        (Ok []) (df_columns df).*1.

(** ** The world around a migration *)

(** The workbook: [pd.ExcelFile] with its sheet names and what
    [pd.read_excel] returns for a name. *)
Record ExcelFile := {
  sheet_names : list pystr;
  read_excel : pystr -> result (frame header)
}.

(** One call of [df.to_sql(name, if_exists='replace', index=False,
    dtype, chunksize=1000, method='multi')]. *)
Record to_sql_call := {
  call_name : pystr;
  call_dtype : list (pystr * sqltype);
  call_frame : frame pystr
}.

(** What [migrate_sheet_to_table] prints. *)
Inductive line :=
| Migrating (sheet_name table_name : pystr) (rows cols : nat)
| SkippingEmptySheet
| ColumnTypes (dtype_dict : list (pystr * sqltype))
| Migrated (rows : nat)
| MigrationFailed (e : exn).

Record World (DB : Type) := {
  db : DB;                       (* the destination database *)
  calls : list to_sql_call;      (* calls of [to_sql] so far, oldest first *)
  out : list line                (* lines printed so far, oldest first *)
}.
Arguments db {DB} w.
Arguments calls {DB} w.
Arguments out {DB} w.

(** Computations that may raise, over the world. *)
Definition M (DB A : Type) : Type := World DB -> World DB * result A.

#[global] Instance M_ret {DB} : MRet (M DB) := fun A a w => (w, Ok a).

#[global] Instance M_bind {DB} : MBind (M DB) := fun A B k m w =>
  match m w with
  | (w', Ok a) => k a w'
  | (w', Raise e) => (w', Raise e)
  end.

Definition lift {DB A} (r : result A) : M DB A := fun w => (w, r).

Definition print {DB} (l : line) : M DB unit :=
  fun w => ({| db := db w; calls := calls w; out := out w ++ [l] |}, Ok tt).

(** [try: body except Exception as e: handler(e)] *)
Definition try_except {DB A} (body : M DB A) (handler : exn -> M DB A)
    : M DB A :=
  fun w =>
    match body w with
    | (w', Ok a) => (w', Ok a)
    | (w', Raise e) => handler e w'
    end.

(** The summary dictionary of [migrate_all] (its timestamps left out). *)
Record Stats := {
  total_sheets : nat;
  successful : nat;
  failed : nat;
  total_rows : nat
}.

(** ** [migrate_sheet_to_table] and [migrate_all] *)

Section Migrator.
Context {U : UnicodeData} {DB : Type}.

(** The destination: what a [to_sql] call does to the database, and
    whether it returns ([true]) or raises. The database it leaves on a
    failure is its own business (batches already written stay). *)
Variable sink : DB -> to_sql_call -> DB * bool.

(** [self.column_types_mapping]. *)
Variable column_types_mapping : gmap pystr sqltype.

Definition to_sql (name : pystr) (dtype : list (pystr * sqltype))
    (df : frame pystr) : M DB unit :=
  fun w =>
    let c := {| call_name := name; call_dtype := dtype; call_frame := df |} in
    let '(db', returned) := sink (db w) c in
    ({| db := db'; calls := calls w ++ [c]; out := out w |},
     if returned then Ok tt else Raise SinkError).

Definition migrate_sheet_to_table (excel_file : ExcelFile)
    (sheet_name : pystr) : World DB -> World DB * bool :=
  fun w =>
    let '(w', r) :=
      try_except
        (df ← lift (read_excel excel_file sheet_name);
         table_name ← lift (clean_table_name sheet_name);
         let rows := df_rows df in
         let cols := length (df_columns df) in
         print (Migrating sheet_name table_name rows cols);;
         if (rows =? 0)%nat then
           print SkippingEmptySheet;;
           mret false
         else
           df ← lift (clean_columns df);
           dtype_dict ← lift (create_dtype_dict column_types_mapping df);
           print (ColumnTypes dtype_dict);;
           to_sql table_name dtype_dict df;;
           print (Migrated rows);;
           mret true)
        (fun e => print (MigrationFailed e);; mret false)
        w in
    (w', match r with Ok b => b | Raise _ => false end).

(** The loop of lines 275-280. *)
Fixpoint migrate_sheets (excel_file : ExcelFile) (names : list pystr)
    (w : World DB) (stats : Stats) : World DB * Stats :=
  match names with
  | [] => (w, stats)
  | sheet_name :: names' =>
      let '(w', success) := migrate_sheet_to_table excel_file sheet_name w in
      let stats' :=
        if success
        then {| total_sheets := total_sheets stats;
                successful := successful stats + 1;
                failed := failed stats;
                total_rows := total_rows stats |}
        else {| total_sheets := total_sheets stats;
                successful := successful stats;
                failed := failed stats + 1;
                total_rows := total_rows stats |} in
      migrate_sheets excel_file names' w' stats'
  end.

(** [connect_mysql] returned [connected]; [read_excel_sheets] returned
    the workbook, or [None] when the file could not be read. *)
Definition migrate_all (connected : bool) (workbook : option ExcelFile)
    (w : World DB) : World DB * Stats :=
  let stats :=
    {| total_sheets := 0; successful := 0; failed := 0; total_rows := 0 |}%nat in
  if negb connected then (w, stats)
  else
    match workbook with
    | None => (w, stats)
    | Some excel_file =>
        let stats :=
          {| total_sheets := length (sheet_names excel_file);
             successful := successful stats;
             failed := failed stats;
             total_rows := total_rows stats |} in
        migrate_sheets excel_file (sheet_names excel_file) w stats
    end.

(** The outcome of each sheet in workbook order, as the loop meets it. *)
Fixpoint sheet_outcomes (excel_file : ExcelFile) (names : list pystr)
    (w : World DB) : list bool :=
  match names with
  | [] => []
  | sheet_name :: names' =>
      let '(w', success) := migrate_sheet_to_table excel_file sheet_name w in
      success :: sheet_outcomes excel_file names' w'
  end.
End Migrator.

(** An in-memory destination for worked examples: a table per name with
    its column types and row count, replaced on every write; it raises on
    a frame without columns. *)
Definition memory_sink (d : gmap pystr (list (pystr * sqltype) * nat))
    (c : to_sql_call) : gmap pystr (list (pystr * sqltype) * nat) * bool :=
  match df_columns (call_frame c) with
  | [] => (d, false)
  | _ => (<[call_name c := (call_dtype c, df_rows (call_frame c))]> d, true)
  end.

(** ** Vocabulary of the specification *)

(** The characters the specification allows in a table name. *)
Definition ident_char (c : N) : bool :=
  ((97 <=? c) && (c <=? 122)) || ascii_isdigit c || (c =? 95).

(** The characters line 169 keeps, on ASCII. *)
Definition word_char (c : N) : bool := ascii_isalnum c || (c =? 95).

Definition blank (s : pystr) : Prop := Forall (fun c => isspace c = true) s.

(** A name as the sanitizer leaves an ASCII label. *)
Record sanitized (t : pystr) : Prop := {
  sanitized_chars : Forall (fun c => ident_char c = true) t;
  sanitized_head : forall c, head t = Some c -> ascii_isdigit c = false;
  sanitized_length : (length t <= 64)%nat;
  sanitized_nonempty : t <> []
}.

(** [m] is the largest value of an integer column, 0 for a column
    without values. *)
Definition column_max (values : list Z) (m : Z) : Prop :=
  (values = [] /\ m = 0%Z)
  \/ (m ∈ values /\ Forall (fun v => (v <= m)%Z) values).

(** [L] is the longest rendering in an object column, 255 when the
    column has no cell or its longest rendering is empty. *)
Definition text_length (values : list ocell) (L : Z) : Prop :=
  (Forall (fun n => n = 0%Z) (str_len values) /\ L = 255%Z)
  \/ (L <> 0%Z /\ L ∈ str_len values
      /\ Forall (fun n => (n <= L)%Z) (str_len values)).





(** How many of the outcomes are [b]. *)
Fixpoint count_of (b : bool) (outcomes : list bool) : nat :=
  match outcomes with
  | [] => 0
  | x :: rest => (if Bool.eqb x b then 1 else 0) + count_of b rest
  end%nat.

(** ** Worked examples *)

Definition empty_world
    : World (gmap pystr (list (pystr * sqltype) * nat)) :=
  {| db := ∅; calls := []; out := [] |}.

(** Three sheets; in the second, two headers clean to the same label, so
    the column types cannot be built. *)
Definition three_sheets : ExcelFile :=
  {| sheet_names := [lit "Sheet One"; lit "Two"; lit "3rd"];
     read_excel := fun name =>
       if bool_decide (name = lit "Sheet One") then
         Ok {| df_columns := [(HStr (lit "id"), SInt [1; 2; 3]%Z)];
               df_rows := 3 |}
       else if bool_decide (name = lit "Two") then
         Ok {| df_columns := [(HStr (lit "a b"), SInt [1]%Z);
                              (HStr (lit "a_b"), SInt [2]%Z)];
               df_rows := 1 |}
       else if bool_decide (name = lit "3rd") then
         Ok {| df_columns := [(HStr (lit "name"),
                               SObject [OStr (lit "x"); ONaN])];
               df_rows := 2 |}
       else Raise ReadError |}.

(** One sheet of three rows. *)
Definition one_sheet : ExcelFile :=
  {| sheet_names := [lit "Data"];
     read_excel := fun name =>
       if bool_decide (name = lit "Data") then
         Ok {| df_columns := [(HStr (lit "id"), SInt [1; 2; 3]%Z)];
               df_rows := 3 |}
       else Raise ReadError |}.

(** A sheet with a header row and no data rows. *)
Definition header_only : ExcelFile :=
  {| sheet_names := [lit "Empty"];
     read_excel := fun name =>
       if bool_decide (name = lit "Empty") then
         Ok {| df_columns := [(HStr (lit "id"), SObject [])]; df_rows := 0 |}
       else Raise ReadError |}.

(** ** Further vocabulary *)

(** A string without whitespace at either end. *)
Definition trimmed (s : pystr) : Prop :=
  (forall c, head s = Some c -> isspace c = false)
  /\ (forall c, last s = Some c -> isspace c = false).

(** The integer types by width. *)
Definition int_rank (t : result sqltype) : nat :=
  match t with
  | Ok SMALLINT => 0
  | Ok INTEGER => 1
  | _ => 2
  end.

(** The types the dtype of a column allows the inferencer to return. *)
Definition type_of_dtype (s : Series) (t : sqltype) : Prop :=
  match s with
  | SInt _ => t = SMALLINT \/ t = INTEGER \/ t = BIGINT
  | SFloat _ => t = DECIMAL 15 4
  | SBool _ => t = BOOLEAN
  | SDatetime _ => t = DATETIME
  | SObject _ =>
      t = TEXT \/ exists n, t = String n /\ ((1 <= n <= 1000)%Z \/ n = 5000%Z)
  end.

(** How often a label occurs among the columns of a frame. *)
Definition occurrences (df : frame pystr) (column : pystr) : nat :=
  length (filter (fun p => p.1 = column) (df_columns df)).

(** A header that is text. *)
Definition is_text (h : header) : bool :=
  match h with HStr _ => true | HOther => false end.

(** One turn of the loop of [create_dtype_dict]. *)
Definition dtype_step (column_types_mapping : gmap pystr sqltype)
    (df : frame pystr) (acc : result (list (pystr * sqltype)))
    (column : pystr) : result (list (pystr * sqltype)) :=
  rbind acc (fun dtype_dict =>
  rbind (infer_mysql_type column_types_mapping (getitem df column) column)
        (fun t => Ok (dict_set column t dtype_dict))).

(** The world after more lines were printed. *)
Definition printed {DB} (w : World DB) (lines : list line) : World DB :=
  {| db := db w; calls := calls w; out := out w ++ lines |}.

(** A sheet name and a header that differ from their cleaned forms. *)
Definition numeric_header : ExcelFile :=
  {| sheet_names := [lit "Totals"];
     read_excel := fun name =>
       if bool_decide (name = lit "Totals") then
         Ok {| df_columns := [(HStr (lit "region"), SObject [OStr (lit "N")]);
                              (HOther, SInt [7]%Z)];
               df_rows := 1 |}
       else Raise ReadError |}.

(** * Properties of [clean_table_name] *)

(** A property of ASCII characters is checked on the 128 of them. *)
Lemma ascii_cases (P : N -> bool) :
  forallb P (map N.of_nat (seq 0 128)) = true ->
  forall c, is_ascii c -> P c = true.
Proof.
  intros HP c Hc. rewrite forallb_forall in HP. apply HP.
  apply in_map_iff. exists (N.to_nat c). split; [apply N2Nat.id|].
  apply in_seq. unfold is_ascii in Hc. lia.
Qed.

Lemma lstrip_suffix s : exists p, s = p ++ lstrip s /\ blank p.
Proof.
  induction s as [|c s [p [Hs Hp]]]; simpl.
  - exists []. split; [done | constructor].
  - destruct (isspace c) eqn:Hc.
    + exists (c :: p). split; [simpl; congruence | by constructor].
    + exists []. split; [done | constructor].
Qed.

Lemma lstrip_Forall (P : N -> Prop) s : Forall P s -> Forall P (lstrip s).
Proof.
  destruct (lstrip_suffix s) as [p [Hs _]]. intros H.
  rewrite Hs in H. by apply Forall_app in H as [_ H].
Qed.

Lemma rstrip_Forall (P : N -> Prop) s : Forall P s -> Forall P (rstrip s).
Proof.
  intros H. unfold rstrip. apply Forall_rev, lstrip_Forall, Forall_rev, H.
Qed.

Lemma strip_Forall (P : N -> Prop) s : Forall P s -> Forall P (strip s).
Proof. intros H. apply rstrip_Forall, lstrip_Forall, H. Qed.

Lemma lstrip_nil s : lstrip s = [] <-> blank s.
Proof.
  unfold blank. induction s as [|c s IH]; simpl.
  - split; [constructor | done].
  - destruct (isspace c) eqn:Hc.
    + rewrite IH. split; [by constructor | by inversion 1].
    + split; [done | inversion 1; congruence].
Qed.

Lemma lstrip_blank s : blank (lstrip s) <-> blank s.
Proof.
  destruct (lstrip_suffix s) as [p [Hs Hp]]. split.
  - intros H. rewrite Hs. by apply Forall_app.
  - apply lstrip_Forall.
Qed.

Lemma strip_nil s : strip s = [] <-> blank s.
Proof.
  unfold strip, rstrip. rewrite <- lstrip_blank. split.
  - intros H. apply (f_equal (@rev N)) in H. rewrite rev_involutive in H.
    simpl in H. apply lstrip_nil in H. unfold blank in *.
    apply Forall_rev in H. by rewrite rev_involutive in H.
  - intros H. apply Forall_rev in H. apply lstrip_nil in H. by rewrite H.
Qed.

Lemma lstrip_id c s : isspace c = false -> lstrip (c :: s) = c :: s.
Proof. intros H. simpl. by rewrite H. Qed.

Lemma strip_id s : Forall (fun c => isspace c = false) s -> strip s = s.
Proof.
  intros H. unfold strip, rstrip.
  assert (Hl : forall x, Forall (fun c => isspace c = false) x -> lstrip x = x).
  { intros [|c x] Hx; [done|]. inversion Hx; subst. by apply lstrip_id. }
  rewrite (Hl s H). rewrite (Hl (rev s)); [apply rev_involutive|].
  by apply Forall_rev.
Qed.

Lemma map_fixed {A} (f : A -> A) (l : list A) :
  Forall (fun a => f a = a) l -> map f l = l.
Proof. induction 1; simpl; congruence. Qed.

Lemma ascii_cases_impl (P Q : N -> bool) :
  forallb (fun c => implb (P c) (Q c)) (map N.of_nat (seq 0 128)) = true ->
  forall c, is_ascii c -> P c = true -> Q c = true.
Proof.
  intros H c Hc HP. pose proof (ascii_cases _ H c Hc) as Hi.
  simpl in Hi. by rewrite HP in Hi.
Qed.

(** Facts about single ASCII characters, each checked on all of them. *)
Lemma word_char_lower c :
  is_ascii c -> word_char c = true -> ident_char (ascii_lower c) = true.
Proof.
  apply (ascii_cases_impl word_char (fun c => ident_char (ascii_lower c))).
  by vm_compute.
Qed.

Lemma ascii_lower_isdigit c :
  is_ascii c -> ascii_isdigit (ascii_lower c) = ascii_isdigit c.
Proof.
  intros Hc.
  pose proof (ascii_cases
    (fun c => eqb (ascii_isdigit (ascii_lower c)) (ascii_isdigit c))) as H.
  specialize (H ltac:(by vm_compute) c Hc). simpl in H.
  by apply eqb_prop in H.
Qed.

Lemma ident_char_facts c :
  ident_char c = true ->
  is_ascii c /\ isspace c = false /\ (c =? 32) = false /\ (c =? 45) = false
  /\ word_char c = true /\ ascii_lower c = c.
Proof.
  intros H.
  assert (Hc : is_ascii c).
  { unfold ident_char, ascii_isdigit in H. unfold is_ascii.
    repeat (apply orb_prop in H as [H|H]);
      repeat (apply andb_prop in H as [? H]);
      rewrite ?N.leb_le, ?N.eqb_eq in *; lia. }
  split; [done|].
  pose proof (ascii_cases_impl ident_char
    (fun c => negb (isspace c) && negb (c =? 32) && negb (c =? 45)
              && word_char c && (ascii_lower c =? c))) as HQ.
  specialize (HQ ltac:(by vm_compute) c Hc H). simpl in HQ.
  repeat (apply andb_prop in HQ as [HQ ?]).
  rewrite ?negb_true_iff, ?N.eqb_eq in *. done.
Qed.

Lemma not_blank_forallb s : forallb isspace s = false -> ~ blank s.
Proof.
  intros H Hb. unfold blank in Hb. rewrite Forall_forall in Hb.
  assert (forallb isspace s = true); [|congruence].
  apply forallb_forall. intros c Hc. apply Hb. by apply list_elem_of_In.
Qed.

Lemma Ok_inj {A} (a b : A) : Ok a = Ok b -> a = b.
Proof. by intros [= ->]. Qed.

Section CleanTableNameFacts.
Context {U : UnicodeData}.

Lemma keep_alnum_nil s : keep_alnum s = [] <-> s = [].
Proof. unfold keep_alnum. by destruct s. Qed.

Lemma replace_nil a b s : replace a b s = [] <-> s = [].
Proof. unfold replace. by destruct s. Qed.

Lemma clean_table_name_blank s :
  blank s -> clean_table_name s = Raise IndexError.
Proof.
  intros H. apply strip_nil in H. unfold clean_table_name. by rewrite H.
Qed.

Lemma clean_table_name_not_blank s :
  ~ blank s -> exists t, clean_table_name s = Ok t.
Proof.
  intros H. unfold clean_table_name.
  destruct (keep_alnum _) as [|c0 b] eqn:Hb; [|by eexists].
  apply keep_alnum_nil, replace_nil, replace_nil, strip_nil in Hb. done.
Qed.


Hypothesis HU : ascii_exact U.

Lemma replace_ascii a b s :
  is_ascii b -> Forall is_ascii s -> Forall is_ascii (replace a b s).
Proof.
  intros Hb H. unfold replace. apply Forall_map.
  eapply Forall_impl; [exact H|]. intros c Hc. simpl. by destruct (c =? a).
Qed.

Lemma keep_alnum_ascii s :
  Forall is_ascii s ->
  Forall (fun c => is_ascii c /\ word_char c = true) (keep_alnum s).
Proof.
  intros H. unfold keep_alnum. apply Forall_map.
  eapply Forall_impl; [exact H|]. intros c Hc. simpl.
  rewrite (isalnum_ascii U HU c Hc). fold (word_char c).
  destruct (word_char c) eqn:Hw; [done|]. by vm_compute.
Qed.

Lemma clean_ascii_sanitized s t :
  Forall is_ascii s -> clean_table_name s = Ok t -> sanitized t.
Proof.
  intros Hs. unfold clean_table_name.
  set (body := keep_alnum _).
  assert (Hbody : Forall (fun c => is_ascii c /\ word_char c = true) body).
  { apply keep_alnum_ascii, replace_ascii, replace_ascii, strip_Forall;
      done || by vm_compute. }
  destruct body as [|c0 b]; [done|].
  set (x := if isdigit c0 then _ else _). intros <-%Ok_inj.
  assert (Hx : Forall (fun c => is_ascii c /\ word_char c = true) x).
  { subst x. destruct (isdigit c0); [|done].
    apply Forall_app. split; [|done].
    vm_compute. repeat constructor. }
  assert (Hhd : exists h x', x = h :: x' /\ ascii_isdigit h = false).
  { subst x. inversion Hbody as [|? ? [Hc0 _] _]; subst.
    rewrite (isdigit_ascii U HU c0 Hc0).
    destruct (ascii_isdigit c0) eqn:Hd; [by eexists _, _ | by eexists _, _]. }
  rewrite (lower_ascii U HU x); [|eapply Forall_impl; [exact Hx|]; by intros ? []].
  destruct Hhd as (h & x' & -> & Hh).
  split.
  - apply Forall_take, Forall_map. eapply Forall_impl; [exact Hx|].
    intros c [Hc Hw]. by apply word_char_lower.
  - simpl. intros c [= <-]. inversion Hx as [|? ? [Hc _] _]; subst.
    by rewrite ascii_lower_isdigit.
  - rewrite length_take. lia.
  - done.
Qed.

Lemma clean_sanitized_fixed t : sanitized t -> clean_table_name t = Ok t.
Proof.
  intros [Hchars Hhead Hlen Hne].
  assert (Hf : Forall (fun c =>
    is_ascii c /\ isspace c = false /\ (c =? 32) = false /\ (c =? 45) = false
    /\ word_char c = true /\ ascii_lower c = c) t).
  { eapply Forall_impl; [exact Hchars|]. apply ident_char_facts. }
  unfold clean_table_name.
  rewrite strip_id; [|eapply Forall_impl; [exact Hf|]; by intros c (_&?&_)].
  unfold replace.
  rewrite (map_fixed (fun c => if c =? 32 then 95 else c));
    [|eapply Forall_impl; [exact Hf|]; intros c (_&_&->&_); done].
  rewrite (map_fixed (fun c => if c =? 45 then 95 else c));
    [|eapply Forall_impl; [exact Hf|]; intros c (_&_&_&->&_); done].
  unfold keep_alnum.
  rewrite map_fixed; cycle 1.
  { eapply Forall_impl; [exact Hf|]. intros c (Hc&_&_&_&Hw&_). simpl.
    rewrite (isalnum_ascii U HU c Hc). fold (word_char c). by rewrite Hw. }
  destruct t as [|c0 t']; [done|].
  inversion Hf as [|? ? (Hc0&_) _]; subst.
  rewrite (isdigit_ascii U HU c0 Hc0), (Hhead c0 eq_refl).
  rewrite (lower_ascii U HU); [|eapply Forall_impl; [exact Hf|]; by intros c (?&_)].
  rewrite map_fixed; [|eapply Forall_impl; [exact Hf|]; by intros c (_&_&_&_&_&?)].
  by rewrite take_ge.
Qed.
End CleanTableNameFacts.

Lemma py_unicode_ascii_exact : ascii_exact py_unicode.
Proof.
  assert (Hn : forall c, is_ascii c -> py_isalnum c = ascii_isalnum c).
  { intros c Hc.
    pose proof (ascii_cases (fun c => eqb (py_isalnum c) (ascii_isalnum c))
                  ltac:(by vm_compute) c Hc) as H.
    by apply eqb_prop in H. }
  assert (Hd : forall c, is_ascii c -> py_isdigit c = ascii_isdigit c).
  { intros c Hc.
    pose proof (ascii_cases (fun c => eqb (py_isdigit c) (ascii_isdigit c))
                  ltac:(by vm_compute) c Hc) as H.
    by apply eqb_prop in H. }
  split; [exact Hn | exact Hd |].
  induction 1 as [|c s Hc Hs IH]; [done|].
  simpl in *. rewrite IH. f_equal.
  unfold py_lower_char, is_ascii in *.
  destruct (N.eqb_spec c 0x130); [lia|].
  destruct (N.leb_spec 0xC0 c); [lia|].
  destruct (N.leb_spec 0xD8 c); [lia|]. done.
Qed.

(** C10. [clean_table_name] is partial: on a label that is empty or all
    whitespace the access [table_name[0]] raises [IndexError] and no name
    is returned; on every label with a character that is not whitespace
    it returns a name. *)
Theorem clean_table_name_partial {U : UnicodeData} (sheet_name : pystr) :
  (blank sheet_name -> clean_table_name sheet_name = Raise IndexError)
  /\ (~ blank sheet_name -> exists t, clean_table_name sheet_name = Ok t).
Proof.
  split; [apply clean_table_name_blank | apply clean_table_name_not_blank].
Qed.

Lemma clean_table_name_partial_witness :
  clean_table_name (U := py_unicode) (lit "  ") = Raise IndexError
  /\ exists t, clean_table_name (U := py_unicode) (lit " Q1 ") = Ok t.
Proof.
  split.
  - apply (proj1 (clean_table_name_partial (U := py_unicode) (lit "  "))).
    vm_compute. repeat constructor.
  - apply (proj2 (clean_table_name_partial (U := py_unicode) (lit " Q1 "))).
    apply not_blank_forallb. by vm_compute.
Defined.




(** C6, as the code has it. Sanitizing is idempotent on ASCII labels:
    when [clean_table_name] returns a name for a label of ASCII
    characters, it returns that name unchanged when applied to it. *)
Theorem clean_table_name_idempotent_ascii {U : UnicodeData}
    (sheet_name t : pystr) :
  ascii_exact U ->
  Forall is_ascii sheet_name ->
  clean_table_name sheet_name = Ok t ->
  clean_table_name t = Ok t.
Proof.
  intros HU Hs Ht. apply (clean_sanitized_fixed HU).
  by apply (clean_ascii_sanitized HU sheet_name).
Qed.

Lemma clean_table_name_idempotent_ascii_witness :
  clean_table_name (U := py_unicode) (lit "table_2024_sales_data__v2_")
  = Ok (lit "table_2024_sales_data__v2_").
Proof.
  apply (clean_table_name_idempotent_ascii (U := py_unicode)
           (lit "2024 Sales-Data (v2)")).
  - exact py_unicode_ascii_exact.
  - vm_compute. repeat constructor.
  - by vm_compute.
Defined.

(** C6 as stated fails: U+0130 lowers to [i] followed by U+0307, a
    combining mark that is not alphanumeric; sanitizing the name again
    replaces the mark by an underscore. *)
Lemma clean_table_name_not_idempotent :
  exists t, clean_table_name (U := py_unicode) [0x130] = Ok t
            /\ clean_table_name (U := py_unicode) t <> Ok t.
Proof. exists [0x69; 0x307]. split; by vm_compute. Qed.

(** * Properties of [infer_mysql_type] *)

Lemma foldl_max_spec (v : Z) (vs : list Z) :
  foldl Z.max v vs ∈ v :: vs
  /\ Forall (fun x => (x <= foldl Z.max v vs)%Z) (v :: vs).
Proof.
  revert v. induction vs as [|x vs IH]; intros v; simpl.
  - split; [apply list_elem_of_here | by repeat constructor].
  - destruct (IH (Z.max v x)) as [Hin Hle]. split.
    + apply elem_of_cons in Hin as [Hin|Hin].
      * rewrite Hin. destruct (Z.max_spec v x) as [[_ ->]|[_ ->]].
        -- apply list_elem_of_further, list_elem_of_here.
        -- apply list_elem_of_here.
      * by do 2 apply list_elem_of_further.
    + inversion Hle as [|? ? Hm Hrest]; subst.
      repeat constructor; [lia | lia | done].
Qed.

Lemma column_max_unique values m m' :
  column_max values m -> column_max values m' -> m = m'.
Proof.
  intros [[-> ->]|[Hin Hle]] [[Hnil ->]|[Hin' Hle']]; try done.
  - by apply elem_of_nil in Hin'.
  - subst. by apply elem_of_nil in Hin.
  - rewrite Forall_forall in Hle, Hle'.
    specialize (Hle _ Hin'). specialize (Hle' _ Hin). lia.
Qed.

Lemma int_max_column_max values :
  column_max values
    (default 0%Z (if bool_decide (0 < length values)%nat
                  then int_max values else Some 0%Z)).
Proof.
  destruct values as [|v vs]; simpl.
  - by left.
  - right. apply foldl_max_spec.
Qed.

(** What the integer branch returns, by the largest value. *)
Lemma infer_int_max mapping name values m :
  mapping !! name = None ->
  column_max values m ->
  infer_mysql_type mapping (OneSeries (SInt values)) name
  = Ok (if (m <? 127)%Z then SMALLINT
        else if (m <? 32767)%Z then INTEGER else BIGINT).
Proof.
  intros Hm Hmax. unfold infer_mysql_type. rewrite Hm.
  pose proof (int_max_column_max values) as Hc.
  rewrite (column_max_unique _ _ _ Hmax Hc).
  destruct values as [|v vs]; simpl; [done|].
  by repeat case_match.
Qed.




(** C2. A column whose name has an entry in the override map gets the
    declared type as it is, whatever the column holds. *)
Theorem infer_override_verbatim mapping name declared series :
  mapping !! name = Some declared ->
  infer_mysql_type mapping series name = Ok declared.
Proof. intros H. unfold infer_mysql_type. by rewrite H. Qed.

Lemma infer_override_verbatim_witness :
  infer_mysql_type {[ lit "age" := TEXT ]}
    (OneSeries (SInt [1; 2; 3]%Z)) (lit "age") = Ok TEXT
  /\ infer_mysql_type {[ lit "age" := TEXT ]}
       (OneSeries (SBool [true])) (lit "age") = Ok TEXT.
Proof.
  split; apply infer_override_verbatim; apply lookup_singleton_eq.
Defined.

Lemma str_len_nonneg values : Forall (fun n => (0 <= n)%Z) (str_len values).
Proof. unfold str_len. apply Forall_map, Forall_true. intros c. simpl. lia. Qed.

Lemma text_length_unique values L L' :
  text_length values L -> text_length values L' -> L = L'.
Proof.
  unfold text_length. rewrite !Forall_forall.
  intros [[Hz ->]|(Hne & Hin & Hle)] [[Hz' ->]|(Hne' & Hin' & Hle')].
  - done.
  - by specialize (Hz _ Hin').
  - by specialize (Hz' _ Hin).
  - specialize (Hle _ Hin'). specialize (Hle' _ Hin). lia.
Qed.

Lemma text_length_nonneg values L : text_length values L -> (0 < L)%Z.
Proof.
  intros [[_ ->]|(Hne & Hin & _)]; [lia|].
  pose proof (str_len_nonneg values) as H. rewrite Forall_forall in H.
  specialize (H _ Hin). lia.
Qed.

(** The length the text branch works with. *)
Lemma str_len_max_text_length values :
  text_length values
    match str_len_max values with
    | None => 255
    | Some n => if (n =? 0)%Z then 255 else n
    end%Z.
Proof.
  unfold text_length, str_len_max.
  pose proof (str_len_nonneg values) as Hpos.
  destruct (str_len values) as [|n ns]; [left; by split|].
  destruct (foldl_max_spec n ns) as [Hin Hle].
  destruct (Z.eqb_spec (foldl Z.max n ns) 0) as [H0|H0].
  - left. split; [|done]. rewrite H0 in Hle.
    rewrite Forall_forall in Hpos, Hle. apply Forall_forall. intros x Hx.
    specialize (Hpos _ Hx). specialize (Hle _ Hx). simpl in *. lia.
  - right. done.
Qed.

(** What the text branch returns, by the longest rendering. *)
Lemma infer_text_length mapping name values L :
  mapping !! name = None ->
  text_length values L ->
  infer_mysql_type mapping (OneSeries (SObject values)) name
  = Ok (if (5000 <? L)%Z then TEXT
        else if (1000 <? L)%Z then String 5000
        else String (Z.min (3 * L / 2) 1000)).
Proof.
  intros Hm HL. unfold infer_mysql_type. rewrite Hm.
  pose proof (str_len_max_text_length values) as Hc.
  rewrite <- (text_length_unique _ _ _ HL Hc).
  pose proof (text_length_nonneg _ _ HL).
  rewrite Z.quot_div_nonneg by lia.
  by repeat case_match.
Qed.





(** A missing cell of an object column counts with the three characters
    of [nan]: a column of missing cells only is typed VarChar(4). *)
Lemma infer_text_missing_rendered :
  infer_mysql_type ∅ (OneSeries (SObject [ONaN; ONaN])) (lit "note")
  = Ok (String 4).
Proof. by vm_compute. Qed.




(** * Properties of the migration *)

Section MigratorFacts.
Context {U : UnicodeData} {DB : Type}.
Variable sink : DB -> to_sql_call -> DB * bool.
Variable mapping : gmap pystr sqltype.

(** A sheet without rows: nothing is written, whatever its name. *)
Lemma migrate_empty_sheet excel_file sheet_name df w :
  read_excel excel_file sheet_name = Ok df ->
  df_rows df = 0%nat ->
  migrate_sheet_to_table sink mapping excel_file sheet_name w
  = match clean_table_name sheet_name with
    | Ok table_name =>
        ({| db := db w; calls := calls w;
            out := (out w
                    ++ [Migrating sheet_name table_name 0
                          (length (df_columns df))])
                   ++ [SkippingEmptySheet] |}, false)
    | Raise e =>
        ({| db := db w; calls := calls w;
            out := out w ++ [MigrationFailed e] |}, false)
    end.
Proof.
  intros Hread Hrows.
  unfold migrate_sheet_to_table, try_except, mbind, M_bind, lift, print.
  rewrite Hread. destruct (clean_table_name sheet_name); simpl; [|done].
  by rewrite Hrows.
Qed.

(** The loop only ever adds to the two counters. *)
Lemma migrate_sheets_counts excel_file names w stats :
  let stats' := (migrate_sheets sink mapping excel_file names w stats).2 in
  let outcomes := sheet_outcomes sink mapping excel_file names w in
  total_sheets stats' = total_sheets stats
  /\ successful stats' = (successful stats + count_of true outcomes)%nat
  /\ failed stats' = (failed stats + count_of false outcomes)%nat
  /\ total_rows stats' = total_rows stats.
Proof.
  revert w stats. induction names as [|name names IH]; intros w stats; simpl.
  - repeat split; lia.
  - destruct (migrate_sheet_to_table sink mapping excel_file name w)
      as [w' success].
    specialize (IH w'). simpl in IH.
    destruct success; simpl.
    + destruct (IH {| total_sheets := total_sheets stats;
                      successful := successful stats + 1;
                      failed := failed stats;
                      total_rows := total_rows stats |})
        as (Ht & Hs & Hf & Hr).
      rewrite Ht, Hs, Hf, Hr. simpl. repeat split; lia.
    + destruct (IH {| total_sheets := total_sheets stats;
                      successful := successful stats;
                      failed := failed stats + 1;
                      total_rows := total_rows stats |})
        as (Ht & Hs & Hf & Hr).
      rewrite Ht, Hs, Hf, Hr. simpl. repeat split; lia.
Qed.

Lemma sheet_outcomes_length excel_file names w :
  length (sheet_outcomes sink mapping excel_file names w) = length names.
Proof.
  revert w. induction names as [|name names IH]; intros w; simpl; [done|].
  destruct (migrate_sheet_to_table sink mapping excel_file name w).
  simpl. by rewrite IH.
Qed.

Lemma count_of_length (l : list bool) :
  (count_of true l + count_of false l = length l)%nat.
Proof. induction l as [|[] l IH]; simpl; lia. Qed.


(** With a connection and a readable workbook the summary counts the
    outcomes of the loop. *)
Lemma migrate_all_outcomes excel_file w :
  let stats := (migrate_all sink mapping true (Some excel_file) w).2 in
  let outcomes :=
    sheet_outcomes sink mapping excel_file (sheet_names excel_file) w in
  total_sheets stats = length (sheet_names excel_file)
  /\ successful stats = count_of true outcomes
  /\ failed stats = count_of false outcomes.
Proof.
  destruct (migrate_sheets_counts excel_file (sheet_names excel_file) w
    {| total_sheets := length (sheet_names excel_file);
       successful := 0; failed := 0; total_rows := 0 |})
    as (Ht & Hs & Hf & _).
  split; [exact Ht | split; [exact Hs | exact Hf]].
Qed.
End MigratorFacts.



(** C8. A failing sheet does not stop the loop: [migrate_all] meets
    every sheet of the workbook in order, counts each one as successful
    or as failed, and the summary satisfies
    [successful + failed = total_sheets]. *)
Theorem migrate_all_counts_every_sheet {U : UnicodeData} {DB : Type}
    (sink : DB -> to_sql_call -> DB * bool) (mapping : gmap pystr sqltype)
    (connected : bool) (workbook : option ExcelFile) (w : World DB) :
  let stats := (migrate_all sink mapping connected workbook w).2 in
  (successful stats + failed stats = total_sheets stats)%nat
  /\ (forall excel_file,
        connected = true ->
        workbook = Some excel_file ->
        let outcomes :=
          sheet_outcomes sink mapping excel_file (sheet_names excel_file) w in
        length outcomes = length (sheet_names excel_file)
        /\ total_sheets stats = length (sheet_names excel_file)
        /\ successful stats = count_of true outcomes
        /\ failed stats = count_of false outcomes).
Proof.
  intros stats.
  assert (Hall : forall excel_file,
    connected = true -> workbook = Some excel_file ->
    let outcomes :=
      sheet_outcomes sink mapping excel_file (sheet_names excel_file) w in
    length outcomes = length (sheet_names excel_file)
    /\ total_sheets stats = length (sheet_names excel_file)
    /\ successful stats = count_of true outcomes
    /\ failed stats = count_of false outcomes).
  { intros excel_file -> -> outcomes.
    split; [apply sheet_outcomes_length|].
    apply migrate_all_outcomes. }
  split; [|exact Hall].
  destruct connected; [|done].
  destruct workbook as [excel_file|]; [|done].
  destruct (Hall excel_file eq_refl eq_refl) as (Hlen & -> & -> & ->).
  rewrite count_of_length. exact Hlen.
Qed.

Lemma migrate_all_counts_every_sheet_witness :
  let stats :=
    (migrate_all (U := py_unicode) memory_sink ∅ true (Some three_sheets)
       empty_world).2 in
  sheet_outcomes (U := py_unicode) memory_sink ∅ three_sheets
    (sheet_names three_sheets) empty_world = [true; false; true]
  /\ total_sheets stats = 3%nat
  /\ successful stats = 2%nat
  /\ failed stats = 1%nat.
Proof.
  intros stats.
  destruct (migrate_all_counts_every_sheet (U := py_unicode) memory_sink ∅
              true (Some three_sheets) empty_world) as [_ H].
  destruct (H three_sheets eq_refl eq_refl) as (_ & Ht & Hs & Hf).
  assert (Ho : sheet_outcomes (U := py_unicode) memory_sink ∅ three_sheets
                 (sheet_names three_sheets) empty_world = [true; false; true])
    by (by vm_compute).
  rewrite Ho in Hs, Hf.
  split; [exact Ho|]. split; [exact Ht|]. split; [exact Hs | exact Hf].
Defined.

(** C9 on the code: a workbook with one sheet of three rows is migrated
    (one successful sheet, the table holds three rows), and the row total
    of the summary is 0. *)
Theorem total_rows_not_accumulated :
  let r :=
    migrate_all (U := py_unicode) memory_sink ∅ true (Some one_sheet)
      empty_world in
  successful r.2 = 1%nat
  /\ db r.1 !! lit "data" = Some ([(lit "id", SMALLINT)], 3%nat)
  /\ total_rows r.2 = 0%nat.
Proof. by vm_compute. Qed.

(** * Further properties of the naming functions *)

Lemma lstrip_app_blank p s : blank p -> lstrip (p ++ s) = lstrip s.
Proof.
  induction 1 as [|c p Hc Hp IH]; simpl; [done|]. by rewrite Hc.
Qed.

Lemma lstrip_head s c : head (lstrip s) = Some c -> isspace c = false.
Proof.
  induction s as [|x s IH]; simpl; [done|].
  destruct (isspace x) eqn:Hx; [exact IH|]. simpl. by intros [= <-].
Qed.

Lemma rstrip_prefix s : exists q, s = rstrip s ++ q /\ blank q.
Proof.
  destruct (lstrip_suffix (rev s)) as [p [Hs Hp]].
  exists (rev p). split.
  - unfold rstrip. rewrite <- rev_app_distr, <- Hs. by rewrite rev_involutive.
  - by apply Forall_rev.
Qed.

Lemma rstrip_app_blank s q : blank q -> rstrip (s ++ q) = rstrip s.
Proof.
  intros Hq. unfold rstrip. rewrite rev_app_distr.
  rewrite lstrip_app_blank; [done|]. by apply Forall_rev.
Qed.

Lemma last_rev (s : pystr) : last (rev s) = head s.
Proof. destruct s as [|c s]; [done|]. simpl. apply last_snoc. Qed.

Lemma head_rev (s : pystr) : head (rev s) = last s.
Proof. rewrite <- (rev_involutive s) at 2. by rewrite last_rev. Qed.

Lemma rstrip_last s c : last (rstrip s) = Some c -> isspace c = false.
Proof. unfold rstrip. rewrite last_rev. apply lstrip_head. Qed.

Lemma rstrip_head s c :
  head (rstrip s) = Some c -> head s = Some c.
Proof.
  destruct (rstrip_prefix s) as [q [Hs _]]. intros H.
  apply head_Some in H as [r Hr]. rewrite Hr in Hs. by rewrite Hs.
Qed.

Lemma strip_trimmed s : trimmed (strip s).
Proof.
  split; intros c Hc.
  - apply rstrip_head in Hc. by apply lstrip_head in Hc.
  - by apply rstrip_last in Hc.
Qed.

Lemma trimmed_strip s : trimmed s -> strip s = s.
Proof.
  intros [Hh Hl]. unfold strip, rstrip.
  assert (Hfix : forall x : pystr,
    (forall c, head x = Some c -> isspace c = false) -> lstrip x = x).
  { intros [|c x] Hx; [done|]. simpl. by rewrite (Hx c eq_refl). }
  rewrite (Hfix s Hh). rewrite (Hfix (rev s)); [apply rev_involutive|].
  intros c. rewrite head_rev. apply Hl.
Qed.

Lemma strip_app_blank p s q :
  blank p -> blank q -> strip (p ++ s ++ q) = strip s.
Proof.
  intros Hp Hq. unfold strip. rewrite (lstrip_app_blank p _ Hp).
  destruct (lstrip_suffix s) as [p' [Hs Hp']].
  destruct (lstrip s) as [|c r] eqn:Hls.
  - assert (Hb : blank (s ++ q)).
    { apply Forall_app. split; [by apply lstrip_nil|done]. }
    apply lstrip_nil in Hb. by rewrite Hb.
  - rewrite Hs at 1. rewrite <- app_assoc, (lstrip_app_blank p' _ Hp').
    assert (Hc : isspace c = false).
    { apply (lstrip_head s). by rewrite Hls. }
    assert (Hl : lstrip ((c :: r) ++ q) = (c :: r) ++ q).
    { simpl. by rewrite Hc. }
    rewrite Hl. apply (rstrip_app_blank (c :: r) q Hq).
Qed.

Lemma strip_length s : (length (strip s) <= length s)%nat.
Proof.
  destruct (lstrip_suffix s) as [p [Hs _]].
  destruct (rstrip_prefix (lstrip s)) as [q [Hq _]].
  unfold strip. rewrite Hs at 2. rewrite Hq at 2.
  rewrite !length_app. lia.
Qed.

Lemma replace_absent a b s : a ∉ s -> replace a b s = s.
Proof.
  intros H. unfold replace. apply map_fixed, Forall_forall.
  intros c Hc. destruct (N.eqb_spec c a) as [->|]; [done | done].
Qed.

Lemma replace_removes a b s : a <> b -> a ∉ replace a b s.
Proof.
  intros Hab. unfold replace. intros H.
  apply (list_elem_of_fmap (fun c => if c =? a then b else c)) in H
    as (c & Hc & _).
  destruct (N.eqb_spec c a); congruence.
Qed.

Lemma replace_keeps_absent x a b s : x ∉ s -> x <> b -> x ∉ replace a b s.
Proof.
  intros Hx Hb. unfold replace. intros H.
  apply (list_elem_of_fmap (fun c => if c =? a then b else c)) in H
    as (c & Hc & Hin).
  destruct (c =? a); [congruence | by subst].
Qed.

Lemma replace_trimmed a b s :
  isspace b = false -> trimmed s -> trimmed (replace a b s).
Proof.
  intros Hb [Hh Hl]. unfold replace. split; intros c.
  - destruct s as [|x s]; [done|]. simpl. intros [= <-].
    destruct (x =? a); [done | by apply Hh].
  - change (map ?f s) with (f <$> s). rewrite fmap_last.
    destruct (last s) as [x|] eqn:Hx; [|done]. simpl. intros [= <-].
    destruct (x =? a); [done | by apply Hl].
Qed.

(** X1. Cleaning a column label is idempotent for every label, the
    cleaned label holds neither a space nor a hyphen, and it is never
    longer than the label. *)
Theorem clean_column_name_idempotent (col : pystr) :
  clean_column_name (clean_column_name col) = clean_column_name col
  /\ (32 ∉ clean_column_name col)
  /\ (45 ∉ clean_column_name col)
  /\ (length (clean_column_name col) <= length col)%nat.
Proof.
  assert (H32 : 32 ∉ clean_column_name col).
  { apply replace_keeps_absent; [by apply replace_removes | done]. }
  assert (H45 : 45 ∉ clean_column_name col) by (by apply replace_removes).
  split; [|split; [done|split; [done|]]].
  - unfold clean_column_name at 1.
    rewrite trimmed_strip.
    + by rewrite (replace_absent 32 95 _ H32), (replace_absent 45 95 _ H45).
    + unfold clean_column_name.
      do 2 (apply replace_trimmed; [done|]). apply strip_trimmed.
  - unfold clean_column_name, replace. rewrite !length_map. apply strip_length.
Qed.

(** X2. Whitespace around a label does not count: a sheet name and a
    column label give the same table name and the same column name with
    and without it. *)
Theorem clean_names_ignore_outer_whitespace {U : UnicodeData}
    (p s q : pystr) :
  blank p -> blank q ->
  clean_table_name (p ++ s ++ q) = clean_table_name s
  /\ clean_column_name (p ++ s ++ q) = clean_column_name s.
Proof.
  intros Hp Hq. unfold clean_table_name, clean_column_name.
  by rewrite (strip_app_blank p s q Hp Hq).
Qed.

Lemma clean_names_ignore_outer_whitespace_witness :
  clean_table_name (U := py_unicode) (lit "  Orders 2024 ")
  = clean_table_name (U := py_unicode) (lit "Orders 2024")
  /\ clean_column_name (lit "  Orders 2024 ")
     = clean_column_name (lit "Orders 2024").
Proof.
  apply (clean_names_ignore_outer_whitespace (U := py_unicode)
           (lit "  ") (lit "Orders 2024") (lit " "));
    vm_compute; repeat constructor.
Defined.

(** The first character of a label decides the prefix: after the
    replacements it is a digit exactly when it was one. *)
Lemma keep_alnum_head_digit {U : UnicodeData} (c : N) :
  ascii_exact U -> is_ascii c ->
  let c1 := if c =? 32 then 95 else c in
  let c2 := if c1 =? 45 then 95 else c1 in
  isdigit (if isalnum c2 || (c2 =? 95) then c2 else 95) = ascii_isdigit c.
Proof.
  intros HU Hc c1 c2.
  assert (H2 : is_ascii c2).
  { subst c1 c2. destruct (c =? 32); simpl; [done|]. by destruct (c =? 45). }
  rewrite (isalnum_ascii U HU c2 H2).
  rewrite (isdigit_ascii U HU); [|by destruct (_ || _)].
  subst c1 c2. clear H2.
  assert (Hall : forall c, is_ascii c ->
    eqb (ascii_isdigit
           (let c1 := if c =? 32 then 95 else c in
            let c2 := if c1 =? 45 then 95 else c1 in
            if ascii_isalnum c2 || (c2 =? 95) then c2 else 95))
        (ascii_isdigit c) = true).
  { apply ascii_cases. by vm_compute. }
  apply eqb_prop. apply (Hall c Hc).
Qed.

(** [clean_table_name] on a label whose stripped form is [c :: r]. *)
Lemma clean_table_name_cons {U : UnicodeData} (s : pystr) (c : N) (r : pystr) :
  strip s = c :: r ->
  let g := fun c =>
    let c1 := if c =? 32 then 95 else c in
    let c2 := if c1 =? 45 then 95 else c1 in
    if isalnum c2 || (c2 =? 95) then c2 else 95 in
  clean_table_name s
  = Ok (take 64 (lower (if isdigit (g c)
                        then lit "table_" ++ g c :: map g r
                        else g c :: map g r))).
Proof.
  intros Hs g. unfold clean_table_name, keep_alnum, replace.
  rewrite Hs, !map_map. reflexivity.
Qed.

(** X3. The length of a table name. For a label of ASCII characters the
    name returned has the length of the stripped label, six more when
    the stripped label begins with a digit, cut at 64; it is never
    empty. *)
Theorem clean_table_name_length_ascii {U : UnicodeData}
    (sheet_name t : pystr) :
  ascii_exact U ->
  Forall is_ascii sheet_name ->
  clean_table_name sheet_name = Ok t ->
  (length t
   = (length (strip sheet_name)
      + match head (strip sheet_name) with
        | Some c => if ascii_isdigit c then 6 else 0
        | None => 0
        end) `min` 64)%nat
  /\ t <> [].
Proof.
  intros HU Hs Ht.
  split; [|by destruct (clean_ascii_sanitized HU sheet_name t Hs Ht)].
  pose proof (strip_Forall is_ascii sheet_name Hs) as Hst.
  assert (Hbody : Forall is_ascii
            (keep_alnum (replace 45 95 (replace 32 95 (strip sheet_name))))).
  { eapply Forall_impl;
      [apply (keep_alnum_ascii HU), replace_ascii, replace_ascii;
       done || by vm_compute|].
    by intros c [Hc _]. }
  destruct (strip sheet_name) as [|c r] eqn:Hstrip.
  { unfold clean_table_name in Ht. by rewrite Hstrip in Ht. }
  inversion Hst as [|? ? Hc Hr]; subst.
  rewrite (clean_table_name_cons sheet_name c r Hstrip) in Ht.
  cbv beta zeta in Ht.
  unfold keep_alnum, replace in Hbody. rewrite !map_map in Hbody.
  cbn [map] in Hbody.
  rewrite (keep_alnum_head_digit c HU Hc) in Ht.
  apply Ok_inj in Ht. subst t.
  rewrite (lower_ascii U HU).
  - rewrite length_take, length_map.
    change (head (c :: r)) with (Some c). cbv iota.
    destruct (ascii_isdigit c).
    + rewrite length_app. change (length (lit "table_")) with 6%nat.
      cbn [length]. rewrite length_map. lia.
    + cbn [length]. rewrite length_map. lia.
  - destruct (ascii_isdigit c); [|exact Hbody].
    apply Forall_app. split; [|exact Hbody]. vm_compute. repeat constructor.
Qed.

Lemma clean_table_name_length_ascii_witness :
  (length (lit "table_2024_sales_data__v2_") = (20 + 6) `min` 64)%nat
  /\ lit "table_2024_sales_data__v2_" <> [].
Proof.
  apply (clean_table_name_length_ascii (U := py_unicode)
           (lit "2024 Sales-Data (v2)") (lit "table_2024_sales_data__v2_")).
  - exact py_unicode_ascii_exact.
  - vm_compute. repeat constructor.
  - by vm_compute.
Defined.

(** * Further properties of [infer_mysql_type] *)

(** X4. Without an override the inferencer never raises on a column, and
    the dtype decides the family of the type: an integer type for an
    integer column, DECIMAL(15,4) for a float column, BOOLEAN for a
    boolean column, DATETIME for a date column, and for an object column
    TEXT or a VARCHAR whose length is between 1 and 1000 or is 5000. The
    other types of the override table are never inferred. *)
Theorem infer_type_by_dtype mapping name series :
  mapping !! name = None ->
  exists t,
    infer_mysql_type mapping (OneSeries series) name = Ok t
    /\ type_of_dtype series t.
Proof.
  intros Hm. destruct series as [vs|vs|vs|vs|vs].
  - rewrite (infer_int_max mapping name vs _ Hm (int_max_column_max vs)).
    eexists. split; [done|]. simpl. repeat case_match; auto.
  - exists (DECIMAL 15 4). unfold infer_mysql_type. by rewrite Hm.
  - exists BOOLEAN. unfold infer_mysql_type. by rewrite Hm.
  - exists DATETIME. unfold infer_mysql_type. by rewrite Hm.
  - pose proof (str_len_max_text_length vs) as HL.
    pose proof (text_length_nonneg _ _ HL) as Hpos.
    rewrite (infer_text_length mapping name vs _ Hm HL).
    eexists. split; [done|]. simpl.
    set (L := match str_len_max vs with None => _ | Some _ => _ end) in *.
    destruct (Z.ltb_spec 5000 L); [by left|]. right.
    destruct (Z.ltb_spec 1000 L); [exists 5000%Z; split; [done | by right]|].
    eexists. split; [done|]. left.
    assert (1 <= 3 * L / 2)%Z by (apply Z.div_le_lower_bound; lia).
    lia.
Qed.

Lemma infer_type_by_dtype_witness :
  exists t,
    infer_mysql_type {[ lit "age" := DATE ]}
      (OneSeries (SFloat [FNaN; FNum 3 0])) (lit "price") = Ok t
    /\ t = DECIMAL 15 4.
Proof.
  apply (infer_type_by_dtype {[ lit "age" := DATE ]} (lit "price")
           (SFloat [FNaN; FNum 3 0])).
  by vm_compute.
Defined.



Lemma column_max_exists values : exists m, column_max values m.
Proof. eexists. apply int_max_column_max. Qed.

(** X6. Only the largest value of an integer column counts. When every
    value is below 127 the type is SMALLINT, however far below zero the
    values reach; as soon as one value is 32767 or more it is BIGINT. *)
Theorem infer_int_by_largest mapping name values :
  mapping !! name = None ->
  (Forall (fun v => (v < 127)%Z) values ->
   infer_mysql_type mapping (OneSeries (SInt values)) name = Ok SMALLINT)
  /\ (forall v, v ∈ values -> (32767 <= v)%Z ->
      infer_mysql_type mapping (OneSeries (SInt values)) name = Ok BIGINT).
Proof.
  intros Hm. destruct (column_max_exists values) as [m Hmax].
  rewrite (infer_int_max mapping name values m Hm Hmax).
  split.
  - intros Hall. destruct Hmax as [[_ ->]|[Hin _]]; [done|].
    rewrite Forall_forall in Hall. specialize (Hall _ Hin).
    destruct (Z.ltb_spec m 127); [done | lia].
  - intros v Hv Hbig. destruct Hmax as [[-> _]|[_ Hle]].
    + by apply elem_of_nil in Hv.
    + rewrite Forall_forall in Hle. specialize (Hle _ Hv).
      destruct (Z.ltb_spec m 127); [lia|].
      destruct (Z.ltb_spec m 32767); [lia | done].
Qed.

Lemma infer_int_by_largest_witness :
  infer_mysql_type ∅ (OneSeries (SInt [-100000; 5]%Z)) (lit "delta")
  = Ok SMALLINT
  /\ infer_mysql_type ∅ (OneSeries (SInt [1; 40000; 2]%Z)) (lit "delta")
     = Ok BIGINT.
Proof.
  split.
  - apply (infer_int_by_largest ∅ (lit "delta") [-100000; 5]%Z);
      [apply lookup_empty|].
    repeat constructor; lia.
  - apply (proj2 (infer_int_by_largest ∅ (lit "delta") [1; 40000; 2]%Z
                    (lookup_empty _)) 40000%Z); [|lia].
    apply list_elem_of_further, list_elem_of_here.
Defined.

(** X7. More rows never narrow an integer column: when every value of
    one column also occurs in another, the type of the second is at
    least as wide (SMALLINT, INTEGER, BIGINT in this order). *)
Theorem infer_int_monotone mapping name values values' :
  mapping !! name = None ->
  values ⊆ values' ->
  (int_rank (infer_mysql_type mapping (OneSeries (SInt values)) name)
   <= int_rank (infer_mysql_type mapping (OneSeries (SInt values')) name))%nat.
Proof.
  intros Hm Hsub.
  destruct (column_max_exists values) as [m Hmax].
  destruct (column_max_exists values') as [m' Hmax'].
  rewrite (infer_int_max mapping name values m Hm Hmax).
  rewrite (infer_int_max mapping name values' m' Hm Hmax').
  destruct Hmax as [[-> ->]|[Hin _]].
  - simpl. lia.
  - destruct Hmax' as [[-> _]|[_ Hle']].
    + apply Hsub in Hin. by apply elem_of_nil in Hin.
    + rewrite Forall_forall in Hle'. specialize (Hle' _ (Hsub _ Hin)).
      destruct (Z.ltb_spec m 127), (Z.ltb_spec m' 127),
        (Z.ltb_spec m 32767), (Z.ltb_spec m' 32767); simpl; lia.
Qed.

Lemma infer_int_monotone_witness :
  (int_rank (infer_mysql_type ∅ (OneSeries (SInt [3; 90]%Z)) (lit "qty"))
   <= int_rank (infer_mysql_type ∅ (OneSeries (SInt [90; 500; 3]%Z))
                  (lit "qty")))%nat.
Proof.
  apply infer_int_monotone; [apply lookup_empty|].
  intros v Hv. apply elem_of_cons in Hv as [->|Hv].
  - do 2 apply list_elem_of_further. apply list_elem_of_here.
  - apply elem_of_cons in Hv as [->|Hv]; [apply list_elem_of_here|].
    by apply elem_of_nil in Hv.
Defined.

(** * Properties of [create_dtype_dict] and [clean_columns] *)

Lemma infer_series_total mapping name series :
  exists t, infer_mysql_type mapping (OneSeries series) name = Ok t.
Proof.
  unfold infer_mysql_type. destruct (mapping !! name); [by eexists|].
  destruct series; repeat case_match; by eexists.
Qed.

(** The inferencer raises on a sub-frame without override, and only then. *)
Lemma infer_raises mapping sel name e :
  infer_mysql_type mapping sel name = Raise e <->
  e = AttributeError /\ mapping !! name = None /\ sel = SubFrame.
Proof.
  split.
  - destruct sel as [s|].
    + destruct (infer_series_total mapping name s) as [t Ht]. congruence.
    + unfold infer_mysql_type. destruct (mapping !! name); [done|].
      by intros [= <-].
  - intros (-> & Hm & ->). unfold infer_mysql_type. by rewrite Hm.
Qed.

Lemma dict_set_keys {V} (k : pystr) (v : V) d c :
  c ∈ (dict_set k v d).*1 <-> c = k \/ c ∈ d.*1.
Proof.
  induction d as [|[k' v'] d IH]; simpl.
  - rewrite list_elem_of_singleton. split; [auto|].
    intros [?|H]; [done | by apply elem_of_nil in H].
  - case_bool_decide as Hk; simpl; rewrite !elem_of_cons.
    + subst. tauto.
    + rewrite IH. tauto.
Qed.

Lemma dict_set_NoDup {V} (k : pystr) (v : V) d :
  NoDup d.*1 -> NoDup (dict_set k v d).*1.
Proof.
  induction d as [|[k' v'] d IH]; simpl; intros Hd.
  - apply NoDup_singleton.
  - apply NoDup_cons in Hd as [Hk' Hd].
    case_bool_decide as Hk; simpl; apply NoDup_cons; split; try done.
    + rewrite dict_set_keys. intros [?|?]; subst; done.
    + by apply IH.
Qed.

Lemma dict_set_elem {V} (k : pystr) (v : V) d c t :
  (c, t) ∈ dict_set k v d -> (c = k /\ t = v) \/ (c, t) ∈ d.
Proof.
  induction d as [|[k' v'] d IH]; simpl.
  - rewrite list_elem_of_singleton. intros [= -> ->]. by left.
  - case_bool_decide as Hk; rewrite !elem_of_cons.
    + subst. intros [[= -> ->]|H]; [by left | right; by right].
    + intros [[= -> ->]|H]; [right; by left|].
      destruct (IH H) as [?|?]; [by left | right; by right].
Qed.

Lemma dict_set_fresh {V} (k : pystr) (v : V) d :
  k ∉ d.*1 -> dict_set k v d = d ++ [(k, v)].
Proof.
  induction d as [|[k' v'] d IH]; simpl; [done|].
  rewrite not_elem_of_cons. intros [Hk Hd].
  case_bool_decide; [congruence|]. by rewrite IH.
Qed.

Section DtypeDict.
Variable mapping : gmap pystr sqltype.
Variable df : frame pystr.

Local Abbreviation step := (dtype_step mapping df).

Lemma dtype_fold_raise labels e : foldl step (Raise e) labels = Raise e.
Proof. induction labels as [|c labels IH]; simpl; [done | exact IH]. Qed.

(** The loop raises when the inferencer raises on one of the labels. *)
Lemma dtype_fold_raises labels d c :
  c ∈ labels ->
  infer_mysql_type mapping (getitem df c) c = Raise AttributeError ->
  foldl step (Ok d) labels = Raise AttributeError.
Proof.
  revert d. induction labels as [|x labels IH]; intros d Hc Hr.
  - by apply elem_of_nil in Hc.
  - simpl. destruct (infer_mysql_type mapping (getitem df x) x) as [t|e] eqn:Hx.
    + apply elem_of_cons in Hc as [->|Hc]; [congruence|]. by apply IH.
    + simpl. apply infer_raises in Hx as (-> & _). apply dtype_fold_raise.
Qed.

(** The loop on labels the inferencer accepts. *)
Lemma dtype_fold_ok labels d :
  Forall (fun c => exists t,
            infer_mysql_type mapping (getitem df c) c = Ok t) labels ->
  NoDup d.*1 ->
  (forall c t, (c, t) ∈ d ->
     infer_mysql_type mapping (getitem df c) c = Ok t) ->
  exists d',
    foldl step (Ok d) labels = Ok d'
    /\ NoDup d'.*1
    /\ (forall c, c ∈ d'.*1 <-> c ∈ d.*1 \/ c ∈ labels)
    /\ (forall c t, (c, t) ∈ d' ->
          infer_mysql_type mapping (getitem df c) c = Ok t).
Proof.
  revert d. induction labels as [|x labels IH]; intros d Hall Hnd Hent.
  - exists d. repeat split; try done; [by left|].
    intros [?|H]; [done | by apply elem_of_nil in H].
  - apply Forall_cons in Hall as [[t Ht] Hall]. simpl. rewrite Ht. simpl.
    destruct (IH (dict_set x t d) Hall) as (d' & Hd' & Hnd' & Hkeys & Hent').
    + by apply dict_set_NoDup.
    + intros c t' Hin. apply dict_set_elem in Hin as [[-> ->]|Hin]; [done|].
      by apply Hent.
    + exists d'. split; [done|]. split; [done|]. split; [|done].
      intros c. rewrite Hkeys, dict_set_keys, elem_of_cons. tauto.
Qed.

(** The loop on distinct labels that are not yet keys: one entry is
    appended for each, in order. *)
Lemma dtype_fold_distinct labels d :
  Forall (fun c => exists t,
            infer_mysql_type mapping (getitem df c) c = Ok t) labels ->
  NoDup (d.*1 ++ labels) ->
  exists ts,
    foldl step (Ok d) labels = Ok (d ++ zip labels ts)
    /\ Forall2 (fun c t =>
                  infer_mysql_type mapping (getitem df c) c = Ok t) labels ts.
Proof.
  revert d. induction labels as [|x labels IH]; intros d Hall Hnd.
  - exists []. simpl. rewrite app_nil_r. split; [done | constructor].
  - apply Forall_cons in Hall as [[t Ht] Hall]. simpl. rewrite Ht. simpl.
    apply NoDup_app in Hnd as (Hd & Hdisj & Hl).
    apply NoDup_cons in Hl as [Hx Hl].
    rewrite dict_set_fresh;
      [|intros Hin; apply (Hdisj _ Hin); apply list_elem_of_here].
    destruct (IH (d ++ [(x, t)]) Hall) as (ts & Hts & Hf).
    + rewrite fmap_app. simpl. apply NoDup_app. split; [|split].
      * apply NoDup_app. split; [done|]. split; [|apply NoDup_singleton].
        intros c Hc Hc'. apply list_elem_of_singleton in Hc'. subst.
        apply (Hdisj _ Hc). apply list_elem_of_here.
      * intros c Hc Hc'. apply elem_of_app in Hc as [Hc|Hc].
        -- apply (Hdisj _ Hc). by apply list_elem_of_further.
        -- apply list_elem_of_singleton in Hc. by subst.
      * done.
    + exists (t :: ts). split; [|by constructor].
      rewrite Hts. simpl. by rewrite <- app_assoc.
Qed.
End DtypeDict.

Lemma create_dtype_dict_fold mapping df :
  create_dtype_dict mapping df
  = foldl (dtype_step mapping df) (Ok []) (df_columns df).*1.
Proof. reflexivity. Qed.

Lemma filter_label_nil (cols : list (pystr * Series)) c :
  c ∉ cols.*1 -> filter (fun p => p.1 = c) cols = [].
Proof.
  induction cols as [|[c' s'] cols IH]; [done|]. simpl.
  rewrite not_elem_of_cons. intros [Hne Hc].
  rewrite filter_cons_False by (simpl; congruence). by apply IH.
Qed.

Lemma getitem_distinct df c s :
  NoDup (df_columns df).*1 -> (c, s) ∈ df_columns df ->
  getitem df c = OneSeries s.
Proof.
  unfold getitem. induction (df_columns df) as [|[c' s'] cols IH]; intros Hnd Hin.
  - by apply elem_of_nil in Hin.
  - simpl in Hnd. apply NoDup_cons in Hnd as [Hc' Hnd].
    apply elem_of_cons in Hin as [[= -> ->]|Hin].
    + rewrite filter_cons_True by done. by rewrite filter_label_nil.
    + assert (c' <> c).
      { intros ->. apply Hc'.
        apply (list_elem_of_fmap_2 fst) in Hin. exact Hin. }
      rewrite filter_cons_False by done. by apply IH.
Qed.

Lemma getitem_frame df c :
  getitem df c = SubFrame <-> occurrences df c <> 1%nat.
Proof.
  unfold getitem, occurrences.
  destruct (filter _ _) as [|[c' s] [|p l]]; simpl; split; try done; lia.
Qed.

Lemma occurrences_pos df c : c ∈ (df_columns df).*1 -> (1 <= occurrences df c)%nat.
Proof.
  unfold occurrences. induction (df_columns df) as [|[c' s'] cols IH]; simpl.
  - intros H. by apply elem_of_nil in H.
  - rewrite elem_of_cons. intros [->|H].
    + rewrite filter_cons_True by done. simpl. lia.
    + specialize (IH H). destruct (decide (c' = c)).
      * rewrite filter_cons_True by done. simpl. lia.
      * by rewrite filter_cons_False.
Qed.

Lemma Forall2_impl_elem {A B} (P Q : A -> B -> Prop) l k :
  Forall2 P l k ->
  (forall x y, x ∈ l -> P x y -> Q x y) ->
  Forall2 Q l k.
Proof.
  induction 1 as [|x y l k Hxy Hlk IH]; intros H; constructor.
  - apply H; [apply list_elem_of_here | done].
  - apply IH. intros x' y' Hx'. apply H. by apply list_elem_of_further.
Qed.

(** X8. When the labels of a frame are distinct, [create_dtype_dict]
    returns one entry for each column, in column order, with the type
    the inferencer gives that column. *)
Theorem create_dtype_dict_distinct mapping df :
  NoDup (df_columns df).*1 ->
  exists ts,
    create_dtype_dict mapping df = Ok (zip (df_columns df).*1 ts)
    /\ Forall2 (fun p t =>
                  infer_mysql_type mapping (OneSeries p.2) p.1 = Ok t)
         (df_columns df) ts.
Proof.
  intros Hnd. rewrite create_dtype_dict_fold.
  assert (Hget : forall p, p ∈ df_columns df -> getitem df p.1 = OneSeries p.2).
  { intros [c s] Hp. by apply getitem_distinct. }
  destruct (dtype_fold_distinct mapping df (df_columns df).*1 []) as (ts & Hts & Hf).
  - apply Forall_forall. intros c Hc.
    apply list_elem_of_fmap in Hc as (p & -> & Hp). rewrite (Hget p Hp).
    apply infer_series_total.
  - done.
  - exists ts. split; [exact Hts|].
    apply Forall2_fmap_l in Hf.
    eapply Forall2_impl_elem; [exact Hf|].
    intros p t Hp. simpl. by rewrite (Hget p Hp).
Qed.

Lemma create_dtype_dict_distinct_witness :
  exists ts,
    create_dtype_dict ∅
      {| df_columns := [(lit "id", SInt [1; 2]%Z);
                        (lit "name", SObject [OStr (lit "Ann"); ONaN])];
         df_rows := 2 |}
    = Ok (zip [lit "id"; lit "name"] ts)
    /\ Forall2 (fun p t => infer_mysql_type ∅ (OneSeries p.2) p.1 = Ok t)
         [(lit "id", SInt [1; 2]%Z);
          (lit "name", SObject [OStr (lit "Ann"); ONaN])] ts.
Proof.
  apply (create_dtype_dict_distinct ∅
    {| df_columns := [(lit "id", SInt [1; 2]%Z);
                      (lit "name", SObject [OStr (lit "Ann"); ONaN])];
       df_rows := 2 |}).
  simpl. apply NoDup_cons. split; [|apply NoDup_singleton].
  rewrite list_elem_of_singleton. by vm_compute.
Defined.

(** X9. [create_dtype_dict] raises exactly when a label that has no
    override occurs on two or more columns, and what it raises is
    [AttributeError]. *)
Theorem create_dtype_dict_raises mapping df :
  (create_dtype_dict mapping df = Raise AttributeError <->
   exists c, c ∈ (df_columns df).*1 /\ mapping !! c = None
             /\ (2 <= occurrences df c)%nat)
  /\ (forall e, create_dtype_dict mapping df = Raise e -> e = AttributeError).
Proof.
  rewrite create_dtype_dict_fold.
  assert (Hdec : (exists c, c ∈ (df_columns df).*1
                    /\ infer_mysql_type mapping (getitem df c) c
                       = Raise AttributeError)
                 \/ Forall (fun c => exists t,
                      infer_mysql_type mapping (getitem df c) c = Ok t)
                      (df_columns df).*1).
  { induction (df_columns df).*1 as [|x l IH]; [right; constructor|].
    destruct (infer_mysql_type mapping (getitem df x) x) as [t|e] eqn:Hx.
    - destruct IH as [(c & Hc & Hr)|Hall].
      + left. exists c. split; [by apply list_elem_of_further | done].
      + right. constructor; [by exists t | done].
    - left. exists x. split; [apply list_elem_of_here|].
      pose proof Hx as Hx'. apply infer_raises in Hx' as (-> & _). exact Hx. }
  assert (Hraise : forall c, c ∈ (df_columns df).*1 ->
    (infer_mysql_type mapping (getitem df c) c = Raise AttributeError <->
     mapping !! c = None /\ (2 <= occurrences df c)%nat)).
  { intros c Hc. rewrite infer_raises, getitem_frame.
    pose proof (occurrences_pos df c Hc). split.
    - intros (_ & ? & ?). split; [done | lia].
    - intros [? ?]. split; [done|]. split; [done | lia]. }
  destruct Hdec as [(c & Hc & Hr)|Hall].
  - rewrite (dtype_fold_raises mapping df _ [] c Hc Hr). split.
    + split; [|done]. intros _. exists c. split; [done|]. by apply Hraise.
    + by intros e [= <-].
  - destruct (dtype_fold_ok mapping df _ [] Hall) as (d' & -> & _);
      [apply NoDup_nil_2 | intros ? ? H; by apply elem_of_nil in H |].
    split; [|done]. split; [done|].
    intros (c & Hc & Hm & Hocc). rewrite Forall_forall in Hall.
    destruct (Hall c Hc) as [t Ht].
    assert (Hr : infer_mysql_type mapping (getitem df c) c
                 = Raise AttributeError) by (by apply Hraise).
    congruence.
Qed.

(** X10. The dictionary [create_dtype_dict] returns has every label of
    the frame as a key, once, and no other key; each key carries the
    type the inferencer gives for that label. *)
Theorem create_dtype_dict_keys mapping df dtype_dict :
  create_dtype_dict mapping df = Ok dtype_dict ->
  NoDup dtype_dict.*1
  /\ (forall c, c ∈ dtype_dict.*1 <-> c ∈ (df_columns df).*1)
  /\ (forall c t, (c, t) ∈ dtype_dict ->
        infer_mysql_type mapping (getitem df c) c = Ok t).
Proof.
  rewrite create_dtype_dict_fold. intros Hd.
  assert (Hall : Forall (fun c => exists t,
            infer_mysql_type mapping (getitem df c) c = Ok t)
            (df_columns df).*1).
  { apply Forall_forall. intros c Hc.
    destruct (infer_mysql_type mapping (getitem df c) c) as [t|e] eqn:Hx;
      [by exists t|].
    apply infer_raises in Hx as (-> & Hx).
    rewrite (dtype_fold_raises mapping df _ [] c Hc) in Hd; [done|].
    by apply infer_raises. }
  destruct (dtype_fold_ok mapping df _ [] Hall) as (d' & Hd' & Hnd & Hkeys & Hent);
    [apply NoDup_nil_2 | intros ? ? H; by apply elem_of_nil in H |].
  rewrite Hd' in Hd. apply Ok_inj in Hd. subst d'.
  split; [done|]. split; [|done].
  intros c. rewrite Hkeys. split; [|by right].
  intros [H|H]; [by apply elem_of_nil in H | done].
Qed.

Lemma create_dtype_dict_keys_witness :
  let d := [(lit "a_b", TEXT)] in
  NoDup d.*1
  /\ (forall c, c ∈ d.*1 <-> c ∈ [lit "a_b"; lit "a_b"])
  /\ (forall c t, (c, t) ∈ d ->
        infer_mysql_type {[ lit "a_b" := TEXT ]}
          (getitem {| df_columns := [(lit "a_b", SInt [1]%Z);
                                     (lit "a_b", SBool [true])];
                      df_rows := 1 |} c) c = Ok t).
Proof.
  apply (create_dtype_dict_keys {[ lit "a_b" := TEXT ]}
           {| df_columns := [(lit "a_b", SInt [1]%Z);
                             (lit "a_b", SBool [true])];
              df_rows := 1 |} [(lit "a_b", TEXT)]).
  by vm_compute.
Defined.

Lemma create_dtype_dict_raises_witness :
  create_dtype_dict ∅
    {| df_columns := [(lit "a_b", SInt [1]%Z); (lit "a_b", SBool [true])];
       df_rows := 1 |}
  = Raise AttributeError.
Proof.
  apply (proj1 (create_dtype_dict_raises ∅
    {| df_columns := [(lit "a_b", SInt [1]%Z); (lit "a_b", SBool [true])];
       df_rows := 1 |})).
  exists (lit "a_b"). split; [apply list_elem_of_here|].
  split; [apply lookup_empty|]. vm_compute. lia.
Defined.

Lemma rmap_clean_columns (cols : list (header * Series)) :
  match rmap (fun '(h, s) =>
                match h with
                | HStr col => Ok (clean_column_name col, s)
                | HOther => Raise AttributeError
                end) cols with
  | Ok cols' =>
      Forall2 (fun p p' =>
                 exists col, p.1 = HStr col
                             /\ p' = (clean_column_name col, p.2)) cols cols'
  | Raise e => e = AttributeError /\ Exists (fun p => p.1 = HOther) cols
  end.
Proof.
  induction cols as [|[h s] cols IH]; simpl; [constructor|].
  destruct h as [col|]; simpl.
  - destruct (rmap _ cols) as [cols'|e]; simpl.
    + constructor; [by exists col | done].
    + destruct IH as [-> IH]. split; [done | by apply Exists_cons_tl].
  - split; [done | by apply Exists_cons_hd].
Qed.

Lemma clean_columns_cases (df : frame header) :
  match clean_columns df with
  | Ok df' =>
      df_rows df' = df_rows df
      /\ Forall2 (fun p p' =>
                    exists col, p.1 = HStr col
                                /\ p' = (clean_column_name col, p.2))
           (df_columns df) (df_columns df')
  | Raise e =>
      e = AttributeError /\ Exists (fun p => p.1 = HOther) (df_columns df)
  end.
Proof.
  unfold clean_columns. pose proof (rmap_clean_columns (df_columns df)) as H.
  destruct (rmap _ (df_columns df)) as [cols'|e]; simpl; [by split | done].
Qed.

Lemma clean_columns_raises_iff (df : frame header) :
  clean_columns df = Raise AttributeError
  <-> Exists (fun p => p.1 = HOther) (df_columns df).
Proof.
  pose proof (clean_columns_cases df) as H. split.
  - intros Hr. rewrite Hr in H. by destruct H.
  - intros Hex. destruct (clean_columns df) as [df'|e]; [|by destruct H as [-> _]].
    destruct H as [_ Hf]. exfalso. revert Hex.
    induction Hf as [|p p' l l' (col & Hp & _) _ IH]; intros Hex.
    + by apply Exists_nil in Hex.
    + apply Exists_cons in Hex as [Hh|Hex]; [congruence | by apply IH].
Qed.

(** X11. [clean_columns] raises exactly when a header is not text, and
    what it raises is [AttributeError]. When it returns, the frame has
    the same row count, the same columns in the same order with the
    same data, and each column carries its cleaned label. *)
Theorem clean_columns_result (df : frame header) :
  (clean_columns df = Raise AttributeError
   <-> Exists (fun p => p.1 = HOther) (df_columns df))
  /\ (forall e, clean_columns df = Raise e -> e = AttributeError)
  /\ (forall df', clean_columns df = Ok df' ->
        df_rows df' = df_rows df
        /\ Forall2 (fun p p' =>
                      exists col, p.1 = HStr col
                                  /\ p' = (clean_column_name col, p.2))
             (df_columns df) (df_columns df')).
Proof.
  split; [apply clean_columns_raises_iff|].
  pose proof (clean_columns_cases df) as H.
  split.
  - intros e He. rewrite He in H. by destruct H.
  - intros df' Hd. by rewrite Hd in H.
Qed.

Lemma clean_columns_result_witness :
  clean_columns
    {| df_columns := [(HStr (lit "region"), SObject [OStr (lit "N")]);
                      (HOther, SInt [7]%Z)];
       df_rows := 1 |}
  = Raise AttributeError
  /\ (df_rows {| df_columns := [(lit "unit_price", SFloat [FNum 5 0])];
                 df_rows := 1 |} = 1%nat
      /\ Forall2 (fun p p' =>
                    exists col, p.1 = HStr col
                                /\ p' = (clean_column_name col, p.2))
           [(HStr (lit " unit-price"), SFloat [FNum 5 0])]
           [(lit "unit_price", SFloat [FNum 5 0])]).
Proof.
  split.
  - apply (proj1 (clean_columns_result _)). apply Exists_cons_tl, Exists_cons_hd.
    done.
  - apply (proj2 (proj2 (clean_columns_result
             {| df_columns := [(HStr (lit " unit-price"), SFloat [FNum 5 0])];
                df_rows := 1 |}))
             {| df_columns := [(lit "unit_price", SFloat [FNum 5 0])];
                df_rows := 1 |}).
    by vm_compute.
Defined.

(** * Further properties of the migration *)

Section SheetFacts.
Context {U : UnicodeData} {DB : Type}.
Variable sink : DB -> to_sql_call -> DB * bool.
Variable mapping : gmap pystr sqltype.

(** [migrate_sheet_to_table], step by step. *)
Lemma migrate_sheet_to_table_eq excel_file sheet_name (w : World DB) :
  migrate_sheet_to_table sink mapping excel_file sheet_name w
  = match read_excel excel_file sheet_name with
    | Raise e => (printed w [MigrationFailed e], false)
    | Ok df =>
        match clean_table_name sheet_name with
        | Raise e => (printed w [MigrationFailed e], false)
        | Ok table_name =>
            let started :=
              Migrating sheet_name table_name (df_rows df)
                (length (df_columns df)) in
            if (df_rows df =? 0)%nat
            then (printed w [started; SkippingEmptySheet], false)
            else
              match clean_columns df with
              | Raise e => (printed w [started; MigrationFailed e], false)
              | Ok df' =>
                  match create_dtype_dict mapping df' with
                  | Raise e => (printed w [started; MigrationFailed e], false)
                  | Ok dtype_dict =>
                      let c := {| call_name := table_name;
                                  call_dtype := dtype_dict;
                                  call_frame := df' |} in
                      ({| db := (sink (db w) c).1;
                          calls := calls w ++ [c];
                          out := out w
                                 ++ [started; ColumnTypes dtype_dict;
                                     if (sink (db w) c).2
                                     then Migrated (df_rows df)
                                     else MigrationFailed SinkError] |},
                       (sink (db w) c).2)
                  end
              end
        end
    end.
Proof.
  unfold migrate_sheet_to_table, try_except, mbind, M_bind, mret, M_ret,
    lift, print, to_sql, printed.
  destruct (read_excel excel_file sheet_name) as [df|e]; [|done].
  destruct (clean_table_name sheet_name) as [t|e]; simpl; [|done].
  destruct (df_rows df =? 0)%nat; simpl.
  { by rewrite <- app_assoc. }
  destruct (clean_columns df) as [df'|e]; simpl;
    [|by rewrite <- app_assoc].
  destruct (create_dtype_dict mapping df') as [d|e]; simpl;
    [|by rewrite <- app_assoc].
  destruct (sink (db w) _) as [db' []]; simpl;
    by rewrite <- !app_assoc.
Qed.

(** X12. What a reported success means. When [migrate_sheet_to_table]
    returns [True], the sheet was read and has rows, its name and labels
    were cleaned and its column types built, and exactly one [to_sql]
    call was made, for the cleaned name with those types and the cleaned
    frame, which the destination accepted. *)
Theorem migrate_sheet_success excel_file sheet_name (w : World DB) :
  let r := migrate_sheet_to_table sink mapping excel_file sheet_name w in
  r.2 = true ->
  exists df table_name df' dtype_dict,
    read_excel excel_file sheet_name = Ok df
    /\ df_rows df <> 0%nat
    /\ clean_table_name sheet_name = Ok table_name
    /\ clean_columns df = Ok df'
    /\ create_dtype_dict mapping df' = Ok dtype_dict
    /\ let c := {| call_name := table_name; call_dtype := dtype_dict;
                   call_frame := df' |} in
       sink (db w) c = (db r.1, true)
       /\ calls r.1 = calls w ++ [c]
       /\ out r.1 = out w ++ [Migrating sheet_name table_name (df_rows df)
                                (length (df_columns df));
                              ColumnTypes dtype_dict;
                              Migrated (df_rows df)].
Proof.
  intros r. subst r. rewrite migrate_sheet_to_table_eq.
  destruct (read_excel excel_file sheet_name) as [df|e]; [|done].
  destruct (clean_table_name sheet_name) as [t|e]; [|done]. simpl.
  destruct (Nat.eqb_spec (df_rows df) 0) as [|Hrows]; [done|].
  destruct (clean_columns df) as [df'|e] eqn:Hclean; [|done].
  destruct (create_dtype_dict mapping df') as [d|e] eqn:Hdict; [|done]. simpl.
  destruct (sink (db w) _) as [db' ok] eqn:Hsink. simpl. intros ->.
  exists df, t, df', d. by rewrite Hsink.
Qed.

(** X13. One sheet, at most one write. [migrate_sheet_to_table] never
    removes a printed line. Either it makes no [to_sql] call, and then
    it returns [False] and the destination is as before; or it makes
    exactly one, and then it returns what the destination answered and
    the destination is as that call left it, also when the call failed. *)
Theorem migrate_sheet_one_call excel_file sheet_name (w : World DB) :
  let r := migrate_sheet_to_table sink mapping excel_file sheet_name w in
  out w `prefix_of` out r.1
  /\ ((calls r.1 = calls w /\ db r.1 = db w /\ r.2 = false)
      \/ exists c, calls r.1 = calls w ++ [c]
                   /\ db r.1 = (sink (db w) c).1
                   /\ r.2 = (sink (db w) c).2).
Proof.
  intros r. subst r. rewrite migrate_sheet_to_table_eq.
  destruct (read_excel excel_file sheet_name) as [df|e];
    [|split; [by eexists | by left]].
  destruct (clean_table_name sheet_name) as [t|e];
    [|split; [by eexists | by left]]. simpl.
  destruct (df_rows df =? 0)%nat; [split; [by eexists | by left]|].
  destruct (clean_columns df) as [df'|e]; [|split; [by eexists | by left]].
  destruct (create_dtype_dict mapping df') as [d|e];
    [|split; [by eexists | by left]].
  simpl. split; [by eexists|]. right. by eexists.
Qed.

(** X14. A sheet whose name is empty or all whitespace is never
    migrated, whatever it holds: [False] is returned, one failure line
    is printed, no [to_sql] call is made. *)
Theorem migrate_sheet_blank_name excel_file sheet_name (w : World DB) :
  blank sheet_name ->
  let r := migrate_sheet_to_table sink mapping excel_file sheet_name w in
  r.2 = false
  /\ calls r.1 = calls w
  /\ db r.1 = db w
  /\ exists e, out r.1 = out w ++ [MigrationFailed e].
Proof.
  intros Hb r. subst r. rewrite migrate_sheet_to_table_eq.
  rewrite (clean_table_name_blank sheet_name Hb).
  destruct (read_excel excel_file sheet_name); simpl; eauto 10.
Qed.

(** X15. A sheet with rows and a header that is not text (a number, a
    date) is never migrated: after the line that announces the sheet a
    failure with [AttributeError] is printed, [False] is returned and no
    [to_sql] call is made. *)
Theorem migrate_sheet_header_not_text excel_file sheet_name df table_name
    (w : World DB) :
  read_excel excel_file sheet_name = Ok df ->
  clean_table_name sheet_name = Ok table_name ->
  df_rows df <> 0%nat ->
  Exists (fun p => p.1 = HOther) (df_columns df) ->
  migrate_sheet_to_table sink mapping excel_file sheet_name w
  = (printed w [Migrating sheet_name table_name (df_rows df)
                  (length (df_columns df));
                MigrationFailed AttributeError], false).
Proof.
  intros Hread Hname Hrows Hex. rewrite migrate_sheet_to_table_eq.
  rewrite Hread, Hname. simpl.
  destruct (Nat.eqb_spec (df_rows df) 0); [done|].
  apply clean_columns_raises_iff in Hex. by rewrite Hex.
Qed.

(** X16. A sheet with rows in which two headers clean to the same label
    is never migrated unless that label has an override: the column
    types cannot be built, [False] is returned and no [to_sql] call is
    made. *)
Theorem migrate_sheet_label_collision excel_file sheet_name df table_name
    df' c (w : World DB) :
  read_excel excel_file sheet_name = Ok df ->
  clean_table_name sheet_name = Ok table_name ->
  df_rows df <> 0%nat ->
  clean_columns df = Ok df' ->
  mapping !! c = None ->
  (2 <= occurrences df' c)%nat ->
  migrate_sheet_to_table sink mapping excel_file sheet_name w
  = (printed w [Migrating sheet_name table_name (df_rows df)
                  (length (df_columns df));
                MigrationFailed AttributeError], false).
Proof.
  intros Hread Hname Hrows Hclean Hm Hocc. rewrite migrate_sheet_to_table_eq.
  rewrite Hread, Hname. simpl.
  destruct (Nat.eqb_spec (df_rows df) 0); [done|].
  rewrite Hclean.
  assert (Hr : create_dtype_dict mapping df' = Raise AttributeError).
  { rewrite create_dtype_dict_fold.
    apply (dtype_fold_raises mapping df' _ [] c).
    - unfold occurrences in Hocc.
      destruct (filter _ (df_columns df')) as [|p l] eqn:Hf; [simpl in Hocc; lia|].
      assert (Hp : p ∈ filter (fun p => p.1 = c) (df_columns df'))
        by (rewrite Hf; apply list_elem_of_here).
      apply list_elem_of_filter in Hp as [<- Hp].
      by apply (list_elem_of_fmap_2 fst).
    - apply infer_raises. split; [done|]. split; [done|].
      apply getitem_frame. lia. }
  by rewrite Hr.
Qed.
End SheetFacts.

Lemma migrate_sheet_success_witness :
  let r := migrate_sheet_to_table (U := py_unicode) memory_sink ∅ one_sheet
             (lit "Data") empty_world in
  exists df table_name df' dtype_dict,
    read_excel one_sheet (lit "Data") = Ok df
    /\ df_rows df <> 0%nat
    /\ clean_table_name (U := py_unicode) (lit "Data") = Ok table_name
    /\ clean_columns df = Ok df'
    /\ create_dtype_dict ∅ df' = Ok dtype_dict
    /\ let c := {| call_name := table_name; call_dtype := dtype_dict;
                   call_frame := df' |} in
       memory_sink (db empty_world) c = (db r.1, true)
       /\ calls r.1 = calls empty_world ++ [c]
       /\ out r.1 = out empty_world
                    ++ [Migrating (lit "Data") table_name (df_rows df)
                          (length (df_columns df));
                        ColumnTypes dtype_dict;
                        Migrated (df_rows df)].
Proof.
  apply (migrate_sheet_success (U := py_unicode) memory_sink ∅ one_sheet
           (lit "Data") empty_world).
  by vm_compute.
Defined.

Lemma migrate_sheet_blank_name_witness :
  let r := migrate_sheet_to_table (U := py_unicode) memory_sink ∅
             {| sheet_names := [lit " "];
                read_excel := fun _ => read_excel one_sheet (lit "Data") |}
             (lit " ") empty_world in
  r.2 = false
  /\ calls r.1 = calls empty_world
  /\ db r.1 = db empty_world
  /\ exists e, out r.1 = out empty_world ++ [MigrationFailed e].
Proof.
  apply (migrate_sheet_blank_name (U := py_unicode) memory_sink ∅).
  vm_compute. repeat constructor.
Defined.

Lemma migrate_sheet_header_not_text_witness :
  migrate_sheet_to_table (U := py_unicode) memory_sink ∅ numeric_header
    (lit "Totals") empty_world
  = (printed empty_world
       [Migrating (lit "Totals") (lit "totals") 1 2;
        MigrationFailed AttributeError], false).
Proof.
  apply (migrate_sheet_header_not_text (U := py_unicode) memory_sink ∅
           numeric_header (lit "Totals")
           {| df_columns := [(HStr (lit "region"), SObject [OStr (lit "N")]);
                             (HOther, SInt [7]%Z)];
              df_rows := 1 |} (lit "totals") empty_world).
  - by vm_compute.
  - by vm_compute.
  - done.
  - apply Exists_cons_tl, Exists_cons_hd. done.
Defined.

Lemma migrate_sheet_label_collision_witness :
  migrate_sheet_to_table (U := py_unicode) memory_sink ∅ three_sheets
    (lit "Two") empty_world
  = (printed empty_world
       [Migrating (lit "Two") (lit "two") 1 2;
        MigrationFailed AttributeError], false).
Proof.
  apply (migrate_sheet_label_collision (U := py_unicode) memory_sink ∅
           three_sheets (lit "Two")
           {| df_columns := [(HStr (lit "a b"), SInt [1]%Z);
                             (HStr (lit "a_b"), SInt [2]%Z)];
              df_rows := 1 |} (lit "two")
           {| df_columns := [(lit "a_b", SInt [1]%Z);
                             (lit "a_b", SInt [2]%Z)];
              df_rows := 1 |} (lit "a_b") empty_world).
  - by vm_compute.
  - by vm_compute.
  - done.
  - by vm_compute.
  - apply lookup_empty.
  - vm_compute. lia.
Defined.

Section LoopFacts.
Context {U : UnicodeData} {DB : Type}.
Variable sink : DB -> to_sql_call -> DB * bool.
Variable mapping : gmap pystr sqltype.

(** What one sheet adds to the calls and to the printed lines. *)
Lemma migrate_sheet_calls excel_file sheet_name (w : World DB) :
  let r := migrate_sheet_to_table sink mapping excel_file sheet_name w in
  out w `prefix_of` out r.1
  /\ ((calls r.1 = calls w /\ r.2 = false)
      \/ exists c, calls r.1 = calls w ++ [c]
                   /\ clean_table_name sheet_name = Ok (call_name c)).
Proof.
  intros r. subst r. rewrite migrate_sheet_to_table_eq.
  destruct (read_excel excel_file sheet_name) as [df|e];
    [|split; [by eexists | by left]].
  destruct (clean_table_name sheet_name) as [t|e];
    [|split; [by eexists | by left]]. simpl.
  destruct (df_rows df =? 0)%nat; [split; [by eexists | by left]|].
  destruct (clean_columns df) as [df'|e]; [|split; [by eexists | by left]].
  destruct (create_dtype_dict mapping df') as [d|e];
    [|split; [by eexists | by left]].
  simpl. split; [by eexists|]. right. by eexists.
Qed.

Lemma migrate_sheets_calls excel_file names (w : World DB) stats :
  let r := migrate_sheets sink mapping excel_file names w stats in
  out w `prefix_of` out r.1
  /\ exists new,
       calls r.1 = calls w ++ new
       /\ (successful r.2 <= successful stats + length new)%nat
       /\ (length new <= length names)%nat
       /\ Forall (fun c => exists n,
                    n ∈ names /\ clean_table_name n = Ok (call_name c)) new.
Proof.
  revert w stats. induction names as [|name names IH]; intros w stats; simpl.
  - split; [done|]. exists []. rewrite app_nil_r. simpl.
    repeat split; [lia | lia | constructor].
  - pose proof (migrate_sheet_calls excel_file name w) as Hone.
    destruct (migrate_sheet_to_table sink mapping excel_file name w)
      as [w1 success]. simpl in Hone. destruct Hone as [Hout Hone].
    set (stats1 := if success then _ else _).
    destruct (IH w1 stats1) as (Hout' & new & Hcalls & Hsucc & Hlen & Hnames).
    split; [by etrans|].
    assert (Hnames' : Forall (fun c => exists n,
              n ∈ name :: names /\ clean_table_name n = Ok (call_name c)) new).
    { eapply Forall_impl; [exact Hnames|]. intros c (n & Hn & Hc).
      exists n. split; [by apply list_elem_of_further | done]. }
    destruct Hone as [[Hsame ->]|(c & Hc & Hname)].
    + exists new. rewrite Hcalls, Hsame. subst stats1. simpl in Hsucc.
      repeat split; [lia | lia | done].
    + exists (c :: new). rewrite Hcalls, Hc, <- app_assoc. simpl.
      repeat split.
      * subst stats1. destruct success; simpl in Hsucc; lia.
      * lia.
      * constructor; [|done]. exists name. split; [apply list_elem_of_here | done].
Qed.

(** X17. The loop goes through the sheets in order and one after the
    other: on two lists of sheets in a row it does what it does on the
    first, then on the second from where the first left the world and
    the counters. *)
Theorem migrate_sheets_app excel_file names1 names2 (w : World DB) stats :
  migrate_sheets sink mapping excel_file (names1 ++ names2) w stats
  = migrate_sheets sink mapping excel_file names2
      (migrate_sheets sink mapping excel_file names1 w stats).1
      (migrate_sheets sink mapping excel_file names1 w stats).2
  /\ sheet_outcomes sink mapping excel_file (names1 ++ names2) w
     = sheet_outcomes sink mapping excel_file names1 w
       ++ sheet_outcomes sink mapping excel_file names2
            (migrate_sheets sink mapping excel_file names1 w stats).1.
Proof.
  revert w stats. induction names1 as [|name names1 IH]; intros w stats; simpl.
  - done.
  - destruct (migrate_sheet_to_table sink mapping excel_file name w)
      as [w1 success].
    set (stats1 := if success then _ else _).
    destruct (IH w1 stats1) as [-> ->]. done.
Qed.

(** X18. [migrate_all] keeps what was printed and the calls made before
    it, and adds at most one [to_sql] call for each sheet and at least
    one for each sheet it counts as successful. *)
Theorem migrate_all_calls connected workbook (w : World DB) :
  let r := migrate_all sink mapping connected workbook w in
  out w `prefix_of` out r.1
  /\ exists new,
       calls r.1 = calls w ++ new
       /\ (successful r.2 <= length new <= total_sheets r.2)%nat.
Proof.
  intros r. subst r. unfold migrate_all.
  destruct connected; simpl;
    [|split; [done | exists []; by rewrite app_nil_r]].
  destruct workbook as [excel_file|];
    [|split; [done | exists []; by rewrite app_nil_r]].
  destruct (migrate_sheets_calls excel_file (sheet_names excel_file) w
    {| total_sheets := length (sheet_names excel_file);
       successful := 0; failed := 0; total_rows := 0 |})
    as (Hout & new & Hcalls & Hsucc & Hlen & _).
  destruct (migrate_sheets_counts sink mapping excel_file
    (sheet_names excel_file) w
    {| total_sheets := length (sheet_names excel_file);
       successful := 0; failed := 0; total_rows := 0 |})
    as (Ht & _).
  split; [exact Hout|]. exists new. split; [exact Hcalls|].
  simpl in *. rewrite Ht. lia.
Qed.

(** X19. Every table [migrate_all] writes is named after a sheet of the
    workbook: each new [to_sql] call carries the cleaned name of one of
    the sheet names. *)
Theorem migrate_all_call_names connected workbook (w : World DB) c :
  c ∈ calls (migrate_all sink mapping connected workbook w).1 ->
  c ∈ calls w
  \/ exists excel_file n,
       workbook = Some excel_file
       /\ n ∈ sheet_names excel_file
       /\ clean_table_name n = Ok (call_name c).
Proof.
  unfold migrate_all. destruct connected; simpl; [|by left].
  destruct workbook as [excel_file|]; [|by left].
  destruct (migrate_sheets_calls excel_file (sheet_names excel_file) w
    {| total_sheets := length (sheet_names excel_file);
       successful := 0; failed := 0; total_rows := 0 |})
    as (_ & new & Hcalls & _ & _ & Hnames).
  simpl in Hcalls. rewrite Hcalls. rewrite elem_of_app. intros [Hc|Hc].
  - by left.
  - right. rewrite Forall_forall in Hnames.
    destruct (Hnames c Hc) as (n & Hn & Hname). by exists excel_file, n.
Qed.

(** X20. A summary with [total_sheets = 0] means that nothing was done:
    without a connection, without a readable workbook or without sheets
    [migrate_all] leaves the world as it was and counts nothing. *)
Theorem migrate_all_nothing connected workbook (w : World DB) :
  let r := migrate_all sink mapping connected workbook w in
  total_sheets r.2 = 0%nat ->
  r.1 = w /\ successful r.2 = 0%nat /\ failed r.2 = 0%nat.
Proof.
  intros r. subst r. unfold migrate_all.
  destruct connected; simpl; [|done].
  destruct workbook as [excel_file|]; [|done].
  destruct (migrate_sheets_counts sink mapping excel_file
    (sheet_names excel_file) w
    {| total_sheets := length (sheet_names excel_file);
       successful := 0; failed := 0; total_rows := 0 |})
    as (Ht & _).
  simpl in Ht. rewrite Ht. intros Hlen.
  apply length_zero_iff_nil in Hlen. by rewrite Hlen.
Qed.

(** X21. A workbook in which every sheet reads without rows: no sheet is
    counted as successful, every sheet is counted as failed, no [to_sql]
    call is made and the destination is as before. *)
Theorem migrate_all_empty_sheets excel_file (w : World DB) :
  (forall n, n ∈ sheet_names excel_file ->
     exists df, read_excel excel_file n = Ok df /\ df_rows df = 0%nat) ->
  let r := migrate_all sink mapping true (Some excel_file) w in
  successful r.2 = 0%nat
  /\ failed r.2 = length (sheet_names excel_file)
  /\ calls r.1 = calls w
  /\ db r.1 = db w.
Proof.
  intros Hempty r. subst r. unfold migrate_all. simpl.
  assert (Hgen : forall names (w : World DB) stats,
    (forall n, n ∈ names ->
       exists df, read_excel excel_file n = Ok df /\ df_rows df = 0%nat) ->
    let r := migrate_sheets sink mapping excel_file names w stats in
    successful r.2 = successful stats
    /\ failed r.2 = (failed stats + length names)%nat
    /\ calls r.1 = calls w /\ db r.1 = db w).
  { clear. induction names as [|name names IH]; intros w stats Hall; simpl.
    - repeat split; lia.
    - destruct (Hall name (list_elem_of_here _ _)) as (df & Hread & Hrows).
      rewrite (migrate_empty_sheet sink mapping excel_file name df w Hread Hrows).
      assert (Hrest : forall n, n ∈ names ->
        exists df, read_excel excel_file n = Ok df /\ df_rows df = 0%nat).
      { intros n Hn. apply Hall. by apply list_elem_of_further. }
      destruct (clean_table_name name) as [t|e].
      + destruct (IH {| db := db w; calls := calls w;
                        out := (out w ++ [Migrating name t 0
                                            (length (df_columns df))])
                               ++ [SkippingEmptySheet] |}
                     {| total_sheets := total_sheets stats;
                        successful := successful stats;
                        failed := failed stats + 1;
                        total_rows := total_rows stats |} Hrest)
          as (Hs & Hf & Hc & Hd).
        simpl in *. rewrite Hs, Hf, Hc, Hd. repeat split; lia.
      + destruct (IH {| db := db w; calls := calls w;
                        out := out w ++ [MigrationFailed e] |}
                     {| total_sheets := total_sheets stats;
                        successful := successful stats;
                        failed := failed stats + 1;
                        total_rows := total_rows stats |} Hrest)
          as (Hs & Hf & Hc & Hd).
        simpl in *. rewrite Hs, Hf, Hc, Hd. repeat split; lia. }
  exact (Hgen (sheet_names excel_file) w
    {| total_sheets := length (sheet_names excel_file);
       successful := 0; failed := 0; total_rows := 0 |} Hempty).
Qed.
End LoopFacts.

Lemma migrate_all_call_names_witness :
  let c := {| call_name := lit "data";
              call_dtype := [(lit "id", SMALLINT)];
              call_frame := {| df_columns := [(lit "id", SInt [1; 2; 3]%Z)];
                               df_rows := 3 |} |} in
  c ∈ calls empty_world
  \/ exists excel_file n,
       Some one_sheet = Some excel_file
       /\ n ∈ sheet_names excel_file
       /\ clean_table_name (U := py_unicode) n = Ok (call_name c).
Proof.
  intros c.
  apply (migrate_all_call_names (U := py_unicode) memory_sink ∅ true
           (Some one_sheet) empty_world c).
  assert (Hcalls : calls (migrate_all (U := py_unicode) memory_sink ∅ true
                            (Some one_sheet) empty_world).1 = [c])
    by (by vm_compute).
  rewrite Hcalls. apply list_elem_of_here.
Defined.

Lemma migrate_all_nothing_witness :
  let r := migrate_all (U := py_unicode) memory_sink ∅ false
             (Some three_sheets) empty_world in
  r.1 = empty_world /\ successful r.2 = 0%nat /\ failed r.2 = 0%nat.
Proof.
  apply (migrate_all_nothing (U := py_unicode) memory_sink ∅ false
           (Some three_sheets) empty_world).
  reflexivity.
Defined.

Lemma migrate_all_empty_sheets_witness :
  let r := migrate_all (U := py_unicode) memory_sink ∅ true
             (Some header_only) empty_world in
  successful r.2 = 0%nat
  /\ failed r.2 = length (sheet_names header_only)
  /\ calls r.1 = calls empty_world
  /\ db r.1 = db empty_world.
Proof.
  apply (migrate_all_empty_sheets (U := py_unicode) memory_sink ∅ header_only
           empty_world).
  intros n Hn. simpl in Hn. apply list_elem_of_singleton in Hn. subst n.
  exists {| df_columns := [(HStr (lit "id"), SObject [])]; df_rows := 0 |}.
  split; [by vm_compute | reflexivity].
Defined.
